(** * wbparser.py: the WildBerries catalogue parser

    A shallow embedding of [WildBerriesParser] (src/wbparser.py) and the
    properties of its flattening / fetching / persisting pipeline.

    Python mutates objects in place and unwinds with exceptions, and a
    mutation made before an exception is raised stays.  The methods are
    therefore written in a state monad whose result is either a value or
    a raised exception, and the state is returned in both cases. *)

From Stdlib Require Import Ascii String List ZArith Bool Lia.
Import ListNotations.
Open Scope string_scope.

(** ** Exceptions and the state/exception monad *)

(** The exceptions that reach the parser.  The first three come from
    [requests] ([requests.get], [Response.raise_for_status],
    [Response.json]); [KeyError] is a failed [d[key]] on a dict;
    [RecursionError] is what the interpreter raises for a call that would
    nest deeper than its recursion limit; the last two are whatever the
    database client and the workbook writer raise. *)
Inductive exn : Type :=
| RequestException
| HTTPError (status : Z)
| JSONDecodeError
| KeyError (key : string)
| RecursionError
| DatabaseError
| OSError.

Inductive result (A : Type) : Type :=
| Ok (a : A)
| Raise (e : exn).
Arguments Ok {A} a.
Arguments Raise {A} e.

Definition M (S A : Type) : Type := S -> result A * S.

Definition ret {S A} (a : A) : M S A := fun s => (Ok a, s).

Definition raise {S A} (e : exn) : M S A := fun s => (Raise e, s).

Definition bind {S A B} (c : M S A) (k : A -> M S B) : M S B :=
  fun s =>
    match c s with
    | (Ok a, s') => k a s'
    | (Raise e, s') => (Raise e, s')
    end.

Definition get {S} : M S S := fun s => (Ok s, s).

Definition modify {S} (f : S -> S) : M S unit := fun s => (Ok tt, f s).

Declare Scope py_scope.
Delimit Scope py_scope with py.
Notation "x <- c1 ;; c2" := (bind c1 (fun x => c2))
  (at level 100, c1 at next level, right associativity) : py_scope.
Notation "c1 ;; c2" := (bind c1 (fun _ => c2))
  (at level 100, right associativity) : py_scope.
Open Scope py_scope.

(** [for x in l: body x] *)
Fixpoint for_each {S A} (body : A -> M S unit) (l : list A) : M S unit :=
  match l with
  | [] => ret tt
  | x :: rest => body x ;; for_each body rest
  end.

(** [d[key]] on a dict whose entry under [key] is [field]. *)
Definition getitem {S A} (key : string) (field : option A) : M S A :=
  match field with
  | Some v => ret v
  | None => raise (KeyError key)
  end.

(** The interpreter keeps a limit on the depth of nested calls, and
    raises [RecursionError] for a call that would pass it.
    [process_catalogue] makes its one call of [traverse_json];
    [spare_frames] is how many more calls the interpreter lets that call
    nest inside itself, one for each level of the catalogue below the
    root. *)
Class Interpreter : Type := { spare_frames : nat }.

(** The interpreter as it is one call further down. *)
Definition below (interpreter : Interpreter) : Interpreter :=
  {| spare_frames := Nat.pred spare_frames |}.

(** CPython 3.11 with its default limit of 1000, when the file is run
    as a script: under the frames of the module, [main],
    [parse_product_cards], [process_catalogue] and the first call of
    [traverse_json] there is room for 994 more calls.  Other versions and
    other callers leave a few more or fewer. *)
Definition cpython : Interpreter := {| spare_frames := 994 |}.

(** Runs on concrete inputs are runs in [cpython]; the properties are
    stated for every interpreter. *)
#[global] Existing Instance cpython.

Section Parser.

(** A product card is whatever JSON value the marketplace returns; the
    parser never looks inside one. *)
Variable product : Type.

(** ** Data *)

(** A decoded JSON object, as the parser reads it.  The parser only ever
    reads four keys: ['name'], ['url'] and ['children'] of a catalogue
    node and ['products'] of a product listing; each may be absent
    ([None]).  A name and a url are strings, the children are a sequence
    of objects and the products a sequence of product cards; documents
    that hold values of other types under these keys are not
    represented. *)
#[local] Set Warnings "-register-all".
Inductive json_object : Type :=
  JObject {
    name : option string;
    url : option string;
    children : option (list json_object);
    products : option (list product)
  }.

(** One entry of the flattened catalogue: [{'name': ..., 'url': ...}]. *)
Record entry : Type :=
  Entry { entry_name : string; entry_url : string }.

(** ** process_catalogue *)

(** The nested function [traverse_json]; the state is the enclosing
    function's list [flattened_catalogue].  [spare] is the number of
    calls the interpreter still lets this call nest inside itself: the
    call for a child, made once its arguments are evaluated, raises
    [RecursionError] when there is none left. *)
Fixpoint traverse_json (spare : nat) (category : json_object)
  (parent_name : string) {struct category} : M (list entry) unit :=
  match children category with
  | Some cs =>
      for_each
        (fun child =>
           n <- getitem "name" (name category) ;;
           match spare with
           | O => raise RecursionError
           | S deeper =>
               traverse_json deeper child ((parent_name ++ n) ++ " -> ")
           end)
        cs
  | None =>
      n <- getitem "name" (name category) ;;
      u <- getitem "url" (url category) ;;
      modify (fun flattened_catalogue =>
                (flattened_catalogue ++ [Entry (parent_name ++ n) u])%list)
  end.

(** The call [traverse_json(child, prefix)] as it is made from a call
    that has [spare] calls left to nest. *)
Definition nested_traverse_json (spare : nat) (child : json_object)
  (prefix : string) : M (list entry) unit :=
  match spare with
  | O => raise RecursionError
  | S deeper => traverse_json deeper child prefix
  end.

Context {interpreter : Interpreter}.

Definition process_catalogue (catalogue : json_object)
  : result (list entry) :=
  match traverse_json spare_frames catalogue "" [] with
  | (Ok _, flattened_catalogue) => Ok flattened_catalogue
  | (Raise e, _) => Raise e
  end.

(** Induction over a tree: a property that holds of a node whenever it
    holds of all its children holds of every node. *)
Section TreeInduction.

Variable P : json_object -> Prop.
Hypothesis leaf_case : forall n u ps, P (JObject n u None ps).
Hypothesis node_case :
  forall n u cs ps, Forall P cs -> P (JObject n u (Some cs) ps).

Fixpoint tree_ind (t : json_object) : P t :=
  match t with
  | JObject n u None ps => leaf_case n u ps
  | JObject n u (Some cs) ps =>
      node_case n u cs ps
        ((fix all (l : list json_object) : Forall P l :=
            match l with
            | [] => Forall_nil P
            | c :: rest => Forall_cons c (tree_ind c) (all rest)
            end) cs)
  end.

End TreeInduction.

(** ** The outside world *)

(** [requests.Response], as far as the parser uses it: the status code,
    and what [Response.json()] decodes the body to ([None] when the body
    is not JSON). *)
Record Response : Type :=
  { status_code : Z; body : option json_object }.

Definition http_headers : Type := list (string * string).

(** The three services the parser calls: [requests.get], the database
    client's [insert_product_card] and the workbook's [save] (called with
    the rows built from the product cards).  What they answer is up to
    the world [W] they run in. *)
Class Collaborators (W : Type) : Type :=
  { requests_get : string -> http_headers -> M W Response;
    insert_product_card : product -> M W unit;
    workbook_save : string -> list product -> M W unit }.

(** The calls that leave the process, in the order they are made. *)
Inductive call : Type :=
| Get (target : string) (hs : http_headers)
| InsertProductCard (card : product)
| SaveWorkbook (file : string) (rows : list product)
| PrintLine (line : string).

Definition is_get (c : call) : bool :=
  match c with Get _ _ => true | _ => false end.

Definition is_insert (c : call) : bool :=
  match c with InsertProductCard _ => true | _ => false end.

(** A call to one of the sinks: a database insert, or something
    [write_to_excel] does. *)
Definition is_sink_write (c : call) : bool := negb (is_get c).

(** Something only [write_to_excel] does. *)
Definition is_excel (c : call) : bool :=
  match c with SaveWorkbook _ _ | PrintLine _ => true | _ => false end.

Variable W : Type.
Context {services : Collaborators W}.

(** ** The parser object *)

(** The attributes of [self] that the methods use.  [run_date] is never
    read, and [chroma_db] is the handle of a service of the world. *)
Record WildBerriesParser : Type :=
  { headers : http_headers;
    product_cards : list product;
    directory : string }.

(** The headers [__init__] sets. *)
Definition browser_headers : http_headers :=
  [("Accept", "*/*");
   ("User-Agent",
    "Mozilla/5.0 (Windows NT 10.0; Win64; x64) AppleWebKit/537.36 (KHTML, like Gecko) Chrome/58.0.3029.110 Safari/537.3")].

(** [__init__]; [dir] is [path.dirname(path.abspath(__file__))]. *)
Definition init (dir : string) : WildBerriesParser :=
  {| headers := browser_headers;
     product_cards := [];
     directory := dir |}.

Record state : Type :=
  { self : WildBerriesParser; world : W; calls : list call }.

(** Running a service: the world moves on and the call is recorded,
    whether the service returns or raises. *)
Definition outside {A} (c : call) (service : M W A) : M state A :=
  fun s =>
    let (r, w) := service (world s) in
    (r, {| self := self s; world := w; calls := (calls s ++ [c])%list |}).

(** [self.product_cards.extend(cards)] *)
Definition extend (cards : list product) : M state unit :=
  modify (fun s =>
    {| self := {| headers := headers (self s);
                  product_cards := (product_cards (self s) ++ cards)%list;
                  directory := directory (self s) |};
       world := world s;
       calls := calls s |}).

(** [requests.get(target, headers=self.headers)] *)
Definition get_with_headers (target : string) : M state Response :=
  s <- get ;;
  outside (Get target (headers (self s)))
          (requests_get target (headers (self s))).

(** [Response.raise_for_status()]: an [HTTPError] for a 4xx or 5xx
    status, nothing otherwise. *)
Definition is_error_status (code : Z) : bool :=
  ((400 <=? code) && (code <? 600))%Z.

Definition raise_for_status {S} (response : Response) : M S unit :=
  if is_error_status (status_code response)
  then raise (HTTPError (status_code response))
  else ret tt.

(** [Response.json()] *)
Definition json {S} (response : Response) : M S json_object :=
  match body response with
  | Some document => ret document
  | None => raise JSONDecodeError
  end.

(** An exception raised by a pure callee propagates. *)
Definition lift {S A} (r : result A) : M S A :=
  match r with
  | Ok a => ret a
  | Raise e => raise e
  end.

(** ** The methods *)

Definition download_current_catalogue : M state json_object :=
  let catalogue_url := "https://search.wb.ru/catalog.json" in
  response <- get_with_headers catalogue_url ;;
  raise_for_status response ;;
  json response.

(** The body of the loop of [parse_product_cards]. *)
Definition fetch_category (category : entry) : M state unit :=
  let category_name := entry_name category in
  let category_url := entry_url category in
  let product_cards_url := "https://search.wb.ru/catalog/" ++ category_url in
  r <- get_with_headers product_cards_url ;;
  response <- json r ;;
  cards <- getitem "products" (products response) ;;
  extend cards.

Definition parse_product_cards : M state unit :=
  document <- download_current_catalogue ;;
  catalogue <- lift (process_catalogue document) ;;
  for_each fetch_category catalogue.

Definition write_to_database : M state unit :=
  s <- get ;;
  for_each (fun product_card =>
              outside (InsertProductCard product_card)
                      (insert_product_card product_card))
           (product_cards (self s)).

(** [os.path.join(a, b)] for a relative [b], with the POSIX separator. *)
Definition ends_with_slash (a : string) : bool :=
  match String.length a with
  | O => false
  | Datatypes.S n =>
      match String.get n a with
      | Some c => Ascii.eqb c "/"%char
      | None => false
      end
  end.

Definition path_join (a b : string) : string :=
  if (String.length a =? 0)%nat || ends_with_slash a
  then a ++ b
  else a ++ "/" ++ b.

(** The workbook and its rows are built in memory from the product
    cards, which is taken to go through; what the model lets fail is the
    save, the one step that leaves the process. *)
Definition write_to_excel : M state unit :=
  s <- get ;;
  let excel_file_path :=
    path_join (directory (self s)) "wb_product_cards.xlsx" in
  outside (SaveWorkbook excel_file_path (product_cards (self s)))
          (workbook_save excel_file_path (product_cards (self s))) ;;
  outside (PrintLine ("Product cards written to " ++ excel_file_path)) (ret tt).

Definition main : M state unit :=
  parse_product_cards ;;
  write_to_database ;;
  write_to_excel.

(** ** Notions used to state the properties *)

(** A state, by its components. *)
Definition mk_state (hs : http_headers) (cards : list product)
  (dir : string) (w : W) (cs : list call) : state :=
  {| self := {| headers := hs; product_cards := cards; directory := dir |};
     world := w;
     calls := cs |}.

(** A computation is [framed] when it never reads the product cards,
    only appends to them, leaves the other attributes alone, and calls
    nothing but [requests.get]: from any state it gives the same result,
    the same world and the same new calls whatever the cards were, and
    the cards it leaves are the old ones followed by the ones it added. *)
Definition framed {A} (c : M state A) : Prop :=
  forall hs dir w cs, exists r added w' new,
    forallb is_get new = true /\
    forall cards0,
      c (mk_state hs cards0 dir w cs)
      = (r, mk_state hs (cards0 ++ added) dir w' (cs ++ new)).

(** The state after one call [c] that left the world in [w]. *)
Definition logged (s : state) (c : call) (w : W) : state :=
  {| self := self s; world := w; calls := (calls s ++ [c])%list |}.

(** [answers hs categories w lists w']: from the world [w], the
    requests for the product listings of [categories], made one after
    the other with the headers [hs], are answered with objects whose
    ['products'] are the lists [lists], and leave the world in [w']. *)
Inductive answers (hs : http_headers)
  : list entry -> W -> list (list product) -> W -> Prop :=
| answers_done (w : W) : answers hs [] w [] w
| answers_next (c : entry) (categories : list entry) (w w1 w2 : W)
    (response : Response) (answer : json_object)
    (cards : list product) (lists : list (list product)) :
    requests_get ("https://search.wb.ru/catalog/" ++ entry_url c) hs w
      = (Ok response, w1) ->
    body response = Some answer ->
    products answer = Some cards ->
    answers hs categories w1 lists w2 ->
    answers hs (c :: categories) w (cards :: lists) w2.

(** The same state on a parser that has no cards yet. *)
Definition without_cards (s : state) : state :=
  mk_state (headers (self s)) [] (directory (self s)) (world s) (calls s).

End Parser.

Arguments JObject {product} _ _ _ _.
Arguments name {product} _.
Arguments url {product} _.
Arguments children {product} _.
Arguments products {product} _.
Arguments traverse_json {product} _ _ _ _.
Arguments nested_traverse_json {product} _ _ _ _.
Arguments process_catalogue {product interpreter} _.
Arguments Build_Response {product} _ _.
Arguments status_code {product} _.
Arguments body {product} _.
Arguments requests_get {product W _} _ _ _.
Arguments insert_product_card {product W _} _ _.
Arguments workbook_save {product W _} _ _ _.
Arguments Get {product} _ _.
Arguments InsertProductCard {product} _.
Arguments SaveWorkbook {product} _ _.
Arguments PrintLine {product} _.
Arguments is_get {product} _.
Arguments is_insert {product} _.
Arguments is_sink_write {product} _.
Arguments is_excel {product} _.
Arguments Build_WildBerriesParser {product} _ _ _.
Arguments headers {product} _.
Arguments product_cards {product} _.
Arguments directory {product} _.
Arguments init {product} _.
Arguments Build_state {product W} _ _ _.
Arguments self {product W} _.
Arguments world {product W} _.
Arguments calls {product W} _.
Arguments outside {product W A} _ _ _.
Arguments extend {product W} _ _.
Arguments get_with_headers {product W services} _ _.
Arguments raise_for_status {product S} _ _.
Arguments json {product S} _ _.
Arguments download_current_catalogue {product W services} _.
Arguments fetch_category {product W services} _ _.
Arguments parse_product_cards {product interpreter W services} _.
Arguments write_to_database {product W services} _.
Arguments write_to_excel {product W services} _.
Arguments main {product interpreter W services} _.
Arguments tree_ind {product} _ _ _ _.
Arguments mk_state {product W} _ _ _ _ _.
Arguments framed product W {A} _.
Arguments logged {product W} _ _ _.
Arguments answers {product W services} _ _ _ _ _.
Arguments answers_done {product W services} _ _.
Arguments answers_next {product W services} _ _ _ _ _ _ _ _ _ _ _ _ _ _.
Arguments without_cards {product W} _.

(** ** What the flattening is expected to give *)

Section Leaves.

Variable product : Type.

Definition is_some {A} (o : option A) : bool :=
  match o with Some _ => true | None => false end.

(** The name and the url of a node that carries them (the empty string
    stands in where the field is absent). *)
Definition name_of (node : json_object product) : string :=
  match name node with Some n => n | None => "" end.

Definition url_of (node : json_object product) : string :=
  match url node with Some u => u | None => "" end.

(** The leaves of a tree (the nodes without a ['children'] field), in
    depth-first pre-order following the order of the children, each with
    the names of its ancestors from the root down. *)
Fixpoint leaves (ancestors : list string) (node : json_object product)
  {struct node} : list (list string * json_object product) :=
  match children node with
  | Some cs => flat_map (leaves (ancestors ++ [name_of node])%list) cs
  | None => [(ancestors, node)]
  end.

(** The ancestor names, each followed by the separator, then the leaf's
    own name. *)
Definition path (ancestors : list string) (leaf_name : string) : string :=
  fold_right (fun a rest => a ++ " -> " ++ rest) leaf_name ancestors.

Definition entry_of (leaf : list string * json_object product) : entry :=
  Entry (path (fst leaf) (name_of (snd leaf))) (url_of (snd leaf)).

(** Every leaf carries a ['name'] and a ['url']. *)
Fixpoint leaves_labelled (node : json_object product) : bool :=
  match children node with
  | Some cs => forallb leaves_labelled cs
  | None => is_some (name node) && is_some (url node)
  end.

(** Every node that has at least one child carries a ['name']. *)
Fixpoint parents_named (node : json_object product) : bool :=
  match children node with
  | Some (c :: cs) =>
      is_some (name node) && forallb parents_named (c :: cs)
  | _ => true
  end.

(** The number of levels below a node: the depth to which
    [traverse_json] nests its calls inside the call for the node. *)
Fixpoint height (node : json_object product) : nat :=
  match children node with
  | Some (c :: cs) => S (list_max (map height (c :: cs)))
  | _ => O
  end.

End Leaves.

Arguments is_some {A} _.
Arguments height {product} _.
Arguments name_of {product} _.
Arguments url_of {product} _.
Arguments leaves {product} _ _.
Arguments entry_of {product} _.
Arguments leaves_labelled {product} _.
Arguments parents_named {product} _.

(** ** A scripted world, for running the parser on concrete inputs *)

(** Product cards are strings here.  Every URL has a fixed answer
    ([answer]); the database accepts [capacity] inserts and raises on the
    next; the world is the list of cards the database holds and the
    list of files written. *)
Definition scripted (answer : string -> result (Response string))
  (capacity : nat) : Collaborators string (list string * list string) :=
  {| requests_get target hs := fun w => (answer target, w);
     insert_product_card card := fun w =>
       if (List.length (fst w) <? capacity)%nat
       then (Ok tt, ((fst w ++ [card])%list, snd w))
       else (Raise DatabaseError, w);
     workbook_save file rows := fun w =>
       (Ok tt, (fst w, (snd w ++ [file])%list)) |}.

Definition leaf (n u : string) : json_object string :=
  JObject (Some n) (Some u) None None.

Definition listing (cards : list string) : json_object string :=
  JObject None None None (Some cards).

Definition start (dir : string) : state string (list string * list string) :=
  {| self := init dir; world := ([], []); calls := [] |}.

(** The scenario of the catalogue with two levels: the root, a leaf
    child and a child with one leaf of its own. *)
Definition shop : json_object string :=
  JObject (Some "Root") None
    (Some [leaf "Shoes" "shoes123";
           JObject (Some "Bags") None (Some [leaf "Totes" "totes55"]) None])
    None.

(** A root without a ['name'] over a complete leaf. *)
Definition nameless_root : json_object string :=
  JObject None None (Some [leaf "Shoes" "shoes123"]) None.

Definition mock_world : Type := (list string * list string)%type.

(** A site given by a table of URLs and answers; any other URL is
    unreachable. *)
Fixpoint site (table : list (string * Response string)) (target : string)
  : result (Response string) :=
  match table with
  | [] => Raise RequestException
  | (u, r) :: rest => if String.eqb u target then Ok r else site rest target
  end.

Definition answer_200 (document : json_object string) : Response string :=
  {| status_code := 200; body := Some document |}.

Definition two_categories : json_object string :=
  JObject (Some "Root") None (Some [leaf "C1" "c1"; leaf "C2" "c2"]) None.

(** Two categories, with two cards and one card. *)
Definition market : list (string * Response string) :=
  [("https://search.wb.ru/catalog.json", answer_200 two_categories);
   ("https://search.wb.ru/catalog/c1", answer_200 (listing ["p1"; "p2"]));
   ("https://search.wb.ru/catalog/c2", answer_200 (listing ["p3"]))].

(** The second category's listing has no ['products'] key. *)
Definition market_malformed : list (string * Response string) :=
  [("https://search.wb.ru/catalog.json", answer_200 two_categories);
   ("https://search.wb.ru/catalog/c1", answer_200 (listing ["p1"; "p2"]));
   ("https://search.wb.ru/catalog/c2",
    answer_200 (JObject None None None None))].

(** The catalogue endpoint answers 503. *)
Definition market_down : list (string * Response string) :=
  [("https://search.wb.ru/catalog.json",
    {| status_code := 503; body := None |})].

(** The catalogue is fine and the one listing comes with status 500 and
    a body that has ['products']. *)
Definition market_500 : list (string * Response string) :=
  [("https://search.wb.ru/catalog.json",
    answer_200 (leaf "Shoes" "shoes123"));
   ("https://search.wb.ru/catalog/shoes123",
    {| status_code := 500; body := Some (listing ["card"]) |})].

(** The same listing answer at the catalogue endpoint. *)
Definition catalogue_500 : list (string * Response string) :=
  [("https://search.wb.ru/catalog.json",
    {| status_code := 500; body := Some (leaf "Shoes" "shoes123") |})].

(** A method run at a site with a database of the given capacity. *)
Definition run {A} (table : list (string * Response string))
  (capacity : nat)
  (method : forall services : Collaborators string mock_world,
              M (state string mock_world) A)
  (s : state string mock_world) : result A * state string mock_world :=
  method (scripted (site table) capacity) s.

Definition parse (services : Collaborators string mock_world) :=
  @parse_product_cards string cpython mock_world services.

Definition download (services : Collaborators string mock_world) :=
  @download_current_catalogue string mock_world services.

Definition whole (services : Collaborators string mock_world) :=
  @main string cpython mock_world services.

Definition to_database (services : Collaborators string mock_world) :=
  @write_to_database string mock_world services.

(** ** Notions for the properties of the single methods *)

(** An entry with [prefix] put before its name. *)
Definition prepend (prefix : string) (e : entry) : entry :=
  Entry (prefix ++ entry_name e) (entry_url e).

(** What [process_catalogue] returns, and nothing where it raises. *)
Definition flattened {product : Type} {interpreter : Interpreter}
  (catalogue : json_object product) : list entry :=
  match process_catalogue catalogue with
  | Ok entries => entries
  | Raise _ => []
  end.

(** The request [parse_product_cards] makes for one flattened entry. *)
Definition listing_request {product : Type} (hs : http_headers)
  (category : entry) : call product :=
  Get ("https://search.wb.ru/catalog/" ++ entry_url category) hs.

(** The request [download_current_catalogue] makes. *)
Definition catalogue_request {product : Type} (hs : http_headers)
  : call product :=
  Get "https://search.wb.ru/catalog.json" hs.

(** A catalogue with a ['children'] field that is empty. *)
Definition empty_catalogue : json_object string :=
  JObject (Some "Root") None (Some []) None.

Definition market_empty : list (string * Response string) :=
  [("https://search.wb.ru/catalog.json", answer_200 empty_catalogue)].

(** The first category's listing has no cards. *)
Definition market_quiet : list (string * Response string) :=
  [("https://search.wb.ru/catalog.json", answer_200 two_categories);
   ("https://search.wb.ru/catalog/c1", answer_200 (listing []));
   ("https://search.wb.ru/catalog/c2", answer_200 (listing ["p3"]))].

(** The second category's endpoint is unreachable. *)
Definition market_partial : list (string * Response string) :=
  [("https://search.wb.ru/catalog.json", answer_200 two_categories);
   ("https://search.wb.ru/catalog/c1", answer_200 (listing ["p1"; "p2"]))].

(** The scripted world, with a disk that is full: saving raises. *)
Definition scripted_disk_full (answer : string -> result (Response string))
  (capacity : nat) : Collaborators string (list string * list string) :=
  {| requests_get target hs := fun w => (answer target, w);
     insert_product_card card := fun w =>
       if (List.length (fst w) <? capacity)%nat
       then (Ok tt, ((fst w ++ [card])%list, snd w))
       else (Raise DatabaseError, w);
     workbook_save file rows := fun w => (Raise OSError, w) |}.

(** A parser that holds the three cards of a run at the market. *)
Definition second_start : state string mock_world :=
  mk_state browser_headers ["p1"; "p2"; "p3"] "/app" ([], []) [].

(** A chain of [k] named nodes, one under the other, over a complete
    leaf: [k + 1] nodes, every one labelled. *)
Fixpoint chain (k : nat) : json_object string :=
  match k with
  | O => leaf "Leaf" "leaf"
  | S shorter => JObject (Some "Level") None (Some [chain shorter]) None
  end.

(** * Properties *)

(** ** Strings and the monad *)

Lemma append_assoc (a b c : string) : (a ++ b) ++ c = a ++ (b ++ c).
Proof.
  induction a as [| ch a IH]; simpl; [reflexivity | now rewrite IH].
Qed.

Lemma append_empty_r (a : string) : a ++ "" = a.
Proof.
  induction a as [| ch a IH]; simpl; [reflexivity | now rewrite IH].
Qed.

Lemma length_append (a b : string) :
  String.length (a ++ b) = (String.length a + String.length b)%nat.
Proof.
  induction a as [| ch a IH]; simpl; [reflexivity | now rewrite IH].
Qed.

Lemma path_prefix (ancestors : list string) (leaf_name : string) :
  path ancestors leaf_name = path ancestors "" ++ leaf_name.
Proof.
  unfold path.
  induction ancestors as [| a rest IH]; cbn [fold_right]; [reflexivity |].
  rewrite IH. now rewrite !append_assoc.
Qed.

Lemma path_extend (ancestors : list string) (n : string) :
  path (ancestors ++ [n]) "" = (path ancestors "" ++ n) ++ " -> ".
Proof.
  unfold path at 1. rewrite fold_right_app. cbn [fold_right].
  rewrite append_empty_r.
  fold (path ancestors (n ++ " -> ")).
  rewrite path_prefix. now rewrite append_assoc.
Qed.

Lemma for_each_app {S A} (body : A -> M S unit) (l1 l2 : list A) (s : S) :
  for_each body (l1 ++ l2) s =
  (for_each body l1 ;; for_each body l2) s.
Proof.
  revert s. induction l1 as [| x l1 IH]; intros s; simpl.
  - reflexivity.
  - unfold bind in *. destruct (body x s) as [[[] | e] s1].
    + now rewrite IH.
    + reflexivity.
Qed.

Lemma map_over_flat_map {A B C} (f : B -> C) (g : A -> list B)
  (l : list A) :
  map f (flat_map g l) = flat_map (fun x => map f (g x)) l.
Proof.
  induction l as [| x l IH]; simpl; [reflexivity |].
  now rewrite map_app, IH.
Qed.

(** A loop whose body only appends to a list appends the bodies'
    contributions in order. *)
Lemma for_each_appends {A B} (body : A -> M (list B) unit)
  (g : A -> list B) (l : list A) :
  Forall (fun x => forall st, body x st = (Ok tt, (st ++ g x)%list)) l ->
  forall st, for_each body l st = (Ok tt, (st ++ flat_map g l)%list).
Proof.
  induction 1 as [| x l Hx _ IH]; intros st; simpl.
  - now rewrite app_nil_r.
  - unfold bind. rewrite Hx, IH. now rewrite app_assoc.
Qed.

(** ** The flattening *)

Section Flattening.

Variable product : Type.


Lemma height_child (c : json_object product)
  (cs : list (json_object product)) (child : json_object product)
  (deeper : nat) :
  list_max (map height (c :: cs)) <= deeper ->
  In child (c :: cs) -> height child <= deeper.
Proof.
  intros Hmax Hin. rewrite list_max_le, Forall_forall in Hmax.
  apply Hmax. now apply in_map.
Qed.

Lemma traverse_json_leaves (t : json_object product) :
  forall spare ancestors st,
    leaves_labelled t = true ->
    parents_named t = true ->
    height t <= spare ->
    traverse_json spare t (path ancestors "") st =
    (Ok tt, (st ++ map entry_of (leaves ancestors t))%list).
Proof.
  induction t as [n u ps | n u cs ps IH] using tree_ind;
    intros spare ancestors st Hl Hp Hh.
  - simpl in Hl. apply andb_prop in Hl as [Hn Hu].
    destruct n as [n |]; [| discriminate].
    destruct u as [u |]; [| discriminate].
    cbn [traverse_json children name url getitem leaves map].
    unfold bind, ret, modify, entry_of, name_of, url_of.
    cbn [fst snd name url].
    now rewrite (path_prefix ancestors n).
  - destruct cs as [| c cs].
    + cbn [traverse_json children for_each leaves flat_map map].
      unfold ret. now rewrite app_nil_r.
    + simpl in Hp. apply andb_prop in Hp as [Hn Hp].
      destruct n as [n |]; [| discriminate].
      change (forallb leaves_labelled (c :: cs) = true) in Hl.
      change (height (JObject (Some n) u (Some (c :: cs)) ps))
        with (S (list_max (map height (c :: cs)))) in Hh.
      destruct spare as [| deeper]; [lia |].
      apply le_S_n in Hh.
      change (traverse_json (S deeper)
                (JObject (Some n) u (Some (c :: cs)) ps)
                (path ancestors "") st)
        with (for_each
                (fun child =>
                   x <- getitem "name" (Some n) ;;
                   traverse_json deeper child
                     ((path ancestors "" ++ x) ++ " -> "))
                (c :: cs) st).
      change (leaves ancestors (JObject (Some n) u (Some (c :: cs)) ps))
        with (flat_map (leaves (ancestors ++ [n])%list) (c :: cs)).
      rewrite map_over_flat_map.
      apply for_each_appends.
      rewrite Forall_forall in IH |- *.
      intros child Hin st'.
      assert (Hlc : leaves_labelled child = true).
      { rewrite forallb_forall in Hl. now apply Hl. }
      assert (Hpc : parents_named child = true).
      { change (forallb parents_named (c :: cs) = true) in Hp.
        rewrite forallb_forall in Hp. now apply Hp. }
      cbn [getitem]. unfold bind, ret.
      rewrite <- path_extend.
      apply (IH child Hin); [exact Hlc | exact Hpc |].
      now apply (height_child c cs).
Qed.

(** A loop whose body only appends entries satisfying [Q] only appends
    entries satisfying [Q], also when it is cut short by an exception. *)
Lemma for_each_extends {A B} (Q : B -> Prop) (body : A -> M (list B) unit)
  (l : list A) :
  Forall (fun x => forall st, exists emitted,
            snd (body x st) = (st ++ emitted)%list /\ Forall Q emitted) l ->
  forall st, exists emitted,
    snd (for_each body l st) = (st ++ emitted)%list /\ Forall Q emitted.
Proof.
  induction 1 as [| x l Hx _ IH]; intros st; simpl.
  - exists []. split; [now rewrite app_nil_r | constructor].
  - unfold bind. destruct (Hx st) as [e1 [E1 Q1]].
    destruct (body x st) as [[[] | e] s1]; simpl in E1; subst s1.
    + destruct (IH (st ++ e1)%list) as [e2 [E2 Q2]].
      exists (e1 ++ e2)%list. split.
      * now rewrite E2, app_assoc.
      * now apply Forall_app.
    + now exists e1.
Qed.

(** Whatever the tree, [traverse_json] only appends to
    [flattened_catalogue], and the name of every entry it appends begins
    with [parent_name]. *)
Lemma traverse_json_extends (t : json_object product) :
  forall spare parent_name st, exists emitted,
    snd (traverse_json spare t parent_name st) = (st ++ emitted)%list /\
    Forall (fun e => exists rest, entry_name e = parent_name ++ rest)
           emitted.
Proof.
  induction t as [n u ps | n u cs ps IH] using tree_ind;
    intros spare parent_name st.
  - cbn [traverse_json children name url].
    destruct n as [n |]; cbn [getitem]; unfold bind, ret, raise, modify.
    + destruct u as [u |]; cbn [snd].
      * exists [Entry (parent_name ++ n) u]. split; [reflexivity |].
        repeat constructor. now exists n.
      * exists []. split; [now rewrite app_nil_r | constructor].
    + exists []. split; [now rewrite app_nil_r | constructor].
  - cbn [traverse_json children name].
    apply for_each_extends.
    rewrite Forall_forall in IH |- *.
    intros child Hin st'.
    destruct n as [n |]; cbn [getitem]; unfold bind, ret, raise.
    + destruct spare as [| deeper].
      * exists []. split; [now rewrite app_nil_r | constructor].
      * destruct (IH child Hin deeper ((parent_name ++ n) ++ " -> ") st')
          as [emitted [E Q]].
        exists emitted. split; [exact E |].
        eapply Forall_impl; [| exact Q].
        intros e [rest Hrest]. exists (n ++ " -> " ++ rest).
        now rewrite Hrest, !append_assoc.
    + exists []. split; [now rewrite app_nil_r | constructor].
Qed.

(** A chain that is longer than the calls left to nest cannot be
    traversed: the call that would pass the limit raises. *)
Lemma traverse_json_chain_too_deep (k : nat) :
  forall spare parent_name st,
    spare < k ->
    traverse_json spare (chain k) parent_name st
    = (Raise RecursionError, st).
Proof.
  induction k as [| k IH]; intros spare parent_name st Hlt; [lia |].
  cbn [chain traverse_json children name for_each getitem].
  unfold bind at 1. unfold bind at 1, ret at 1.
  destruct spare as [| deeper]; [reflexivity |].
  rewrite IH by lia. reflexivity.
Qed.

Lemma chain_labelled (k : nat) :
  leaves_labelled (chain k) = true /\ parents_named (chain k) = true.
Proof.
  induction k as [| k [IHl IHp]]; [split; reflexivity |].
  cbn [chain leaves_labelled parents_named children name forallb is_some].
  now rewrite IHl, IHp.
Qed.

End Flattening.

Arguments traverse_json_leaves {product} _ _ _ _ _ _ _.
Arguments traverse_json_extends {product} _ _ _ _.


Example process_catalogue_shop :
  process_catalogue shop =
  Ok [Entry "Root -> Shoes" "shoes123";
      Entry "Root -> Bags -> Totes" "totes55"].
Proof. reflexivity. Qed.

(** C1, as amended.  For every catalogue tree in which every leaf (a
    node without a ['children'] field) carries a ['name'] and a ['url'],
    every node that has at least one child carries a ['name'], and the
    levels below the root are no more than the calls the interpreter
    lets [traverse_json] nest, [process_catalogue] returns exactly one
    entry per leaf, in depth-first pre-order following the order of the
    children; the entry's name is the names of the leaf's ancestors from
    the root down, each followed by [" -> "], then the leaf's own name,
    and its url is the leaf's url. *)
Theorem process_catalogue_one_entry_per_leaf {product : Type}
  {interpreter : Interpreter} (catalogue : json_object product) :
  leaves_labelled catalogue = true ->
  parents_named catalogue = true ->
  height catalogue <= spare_frames ->
  process_catalogue catalogue = Ok (map entry_of (leaves [] catalogue)) /\
  (forall flattened, process_catalogue catalogue = Ok flattened ->
     List.length flattened = List.length (leaves [] catalogue)).
Proof.
  intros Hl Hp Hh.
  assert (E : process_catalogue catalogue =
              Ok (map entry_of (leaves [] catalogue))).
  { unfold process_catalogue.
    change "" with (path [] "").
    now rewrite (traverse_json_leaves catalogue spare_frames [] [] Hl Hp Hh). }
  split; [exact E |].
  intros flattened Hf. rewrite E in Hf. injection Hf as <-.
  apply length_map.
Qed.

(** The two-level catalogue meets the three conditions and flattens to
    its two leaves. *)
Lemma process_catalogue_one_entry_per_leaf_shop :
  leaves_labelled shop = true /\
  parents_named shop = true /\
  height shop = 2 /\
  process_catalogue shop = Ok (map entry_of (leaves [] shop)) /\
  map entry_of (leaves [] shop) =
    [Entry "Root -> Shoes" "shoes123";
     Entry "Root -> Bags -> Totes" "totes55"].
Proof.
  split; [reflexivity |]. split; [reflexivity |].
  split; [reflexivity |]. split.
  - apply (process_catalogue_one_entry_per_leaf shop);
      [reflexivity | reflexivity | cbv; lia].
  - reflexivity.
Defined.


(** C1 as stated fails, in two ways.  Every leaf of [nameless_root]
    carries a name and a url, and [process_catalogue] raises
    [KeyError: 'name'] instead of returning the one entry of its leaf.
    The chain of a thousand nodes is labelled throughout, and
    [process_catalogue] raises [RecursionError] instead of returning the
    one entry of its leaf. *)
Lemma process_catalogue_raises_on_labelled_trees :
  (leaves_labelled nameless_root = true /\
   List.length (leaves [] nameless_root) = 1%nat /\
   process_catalogue nameless_root = Raise (KeyError "name") /\
   ~ (exists flattened, process_catalogue nameless_root = Ok flattened)) /\
  (leaves_labelled (chain 999) = true /\
   parents_named (chain 999) = true /\
   process_catalogue (chain 999) = Raise RecursionError /\
   ~ (exists flattened, process_catalogue (chain 999) = Ok flattened)).
Proof.
  assert (Hdeep : process_catalogue (chain 999) = Raise RecursionError).
  { unfold process_catalogue.
    rewrite traverse_json_chain_too_deep
      by (cbv [spare_frames cpython]; lia).
    reflexivity. }
  split.
  - repeat split; try reflexivity.
    intros [flattened H]. discriminate H.
  - destruct (chain_labelled 999) as [Hl Hp].
    split; [exact Hl |]. split; [exact Hp |]. split; [exact Hdeep |].
    intros [flattened H]. rewrite Hdeep in H. discriminate H.
Qed.

(** C2, as amended.  A node whose ['children'] field is present and
    empty takes the children branch: the loop runs zero times, nothing
    is appended to the flattened catalogue, nothing is raised, and the
    node's name and url are never read. *)
Theorem empty_children_emit_nothing {product : Type}
  {interpreter : Interpreter} (spare : nat)
  (n u : option string) (ps : option (list product))
  (parent_name : string) (flattened_catalogue : list entry) :
  traverse_json spare (JObject n u (Some []) ps)
      parent_name flattened_catalogue
    = (Ok tt, flattened_catalogue) /\
  process_catalogue (JObject n u (Some []) ps) = Ok [].
Proof. split; reflexivity. Qed.

(** C2 as stated fails: a node with [children: []] gives no entry,
    where the same node without the field gives one. *)
Lemma empty_children_not_a_leaf :
  process_catalogue (JObject (Some "Shoes") (Some "shoes123") (Some []) None
                     : json_object string) = Ok [] /\
  process_catalogue (leaf "Shoes" "shoes123")
    = Ok [Entry "Shoes" "shoes123"] /\
  process_catalogue (JObject (Some "Shoes") (Some "shoes123") (Some []) None
                     : json_object string)
    <> process_catalogue (leaf "Shoes" "shoes123").
Proof.
  repeat split. cbv. discriminate.
Qed.


(** C9, as amended.  If the root has no ['children'] field and carries a
    ['name'] and a ['url'], [process_catalogue] returns exactly one
    entry, whose name is the root's own name, with no separator before
    it, and whose url is the root's url. *)
Theorem process_catalogue_root_leaf {product : Type}
  {interpreter : Interpreter}
  (catalogue : json_object product) (n u : string) :
  children catalogue = None ->
  name catalogue = Some n ->
  url catalogue = Some u ->
  process_catalogue catalogue = Ok [Entry n u].
Proof.
  destruct catalogue as [n' u' cs ps]. simpl.
  intros -> -> ->. reflexivity.
Qed.

(** A catalogue that is one complete leaf. *)
Lemma process_catalogue_root_leaf_shoes :
  process_catalogue (leaf "Shoes" "shoes123")
    = Ok [Entry "Shoes" "shoes123"].
Proof.
  apply (process_catalogue_root_leaf (leaf "Shoes" "shoes123"));
    reflexivity.
Defined.

(** C9 as stated fails: a root without ['children'] and without a
    ['url'] gives no entry, [process_catalogue] raises [KeyError: 'url']. *)
Lemma process_catalogue_root_without_url :
  children (JObject (Some "Root") None None None : json_object string)
    = None /\
  process_catalogue (JObject (Some "Root") None None None
                     : json_object string) = Raise (KeyError "url").
Proof. split; reflexivity. Qed.

(** ** The pipeline *)

Section Pipeline.

Variable product : Type.
Variable W : Type.
Context {services : Collaborators product W}.
Context {interpreter : Interpreter}.


Lemma state_eta (s : state product W) :
  s = mk_state (headers (self s)) (product_cards (self s))
        (directory (self s)) (world s) (calls s).
Proof. destruct s as [[hs cards dir] w cs]. reflexivity. Qed.


Lemma framed_ret {A} (a : A) : framed product W (ret a).
Proof.
  intros hs dir w cs. exists (Ok a), [], w, []. split; [reflexivity |].
  intros cards0. unfold ret. now rewrite !app_nil_r.
Qed.

Lemma framed_raise {A} (e : exn) :
  framed product W (raise e : M _ A).
Proof.
  intros hs dir w cs. exists (Raise e), [], w, []. split; [reflexivity |].
  intros cards0. unfold raise. now rewrite !app_nil_r.
Qed.

Lemma framed_bind {A B} (c : M (state product W) A)
  (k : A -> M (state product W) B) :
  framed product W c -> (forall a, framed product W (k a)) ->
  framed product W (bind c k).
Proof.
  intros Hc Hk hs dir w cs.
  destruct (Hc hs dir w cs) as (r & a1 & w1 & n1 & G1 & E1).
  destruct r as [a | e].
  - destruct (Hk a hs dir w1 (cs ++ n1)%list) as (r2 & a2 & w2 & n2 & G2 & E2).
    exists r2, (a1 ++ a2)%list, w2, (n1 ++ n2)%list. split.
    + rewrite forallb_app, G1, G2. reflexivity.
    + intros cards0. unfold bind. rewrite E1, E2. now rewrite !app_assoc.
  - exists (Raise e), a1, w1, n1. split; [exact G1 |].
    intros cards0. unfold bind. now rewrite E1.
Qed.

Lemma framed_for_each {A} (body : A -> M (state product W) unit)
  (l : list A) :
  (forall x, framed product W (body x)) -> framed product W (for_each body l).
Proof.
  intros Hb. induction l as [| x l IH]; simpl.
  - apply framed_ret.
  - apply framed_bind; [apply Hb | intros _; exact IH].
Qed.

Lemma framed_get_with_headers (target : string) :
  framed product W (get_with_headers target).
Proof.
  intros hs dir w cs.
  destruct (requests_get target hs w) as [r w'] eqn:E.
  exists r, [], w', [Get target hs]. split; [reflexivity |].
  intros cards0. unfold get_with_headers, bind, get, outside.
  cbn. rewrite E. unfold mk_state. now rewrite app_nil_r.
Qed.

Lemma framed_extend (cards : list product) : framed product W (extend cards).
Proof.
  intros hs dir w cs. exists (Ok tt), cards, w, []. split; [reflexivity |].
  intros cards0. unfold extend, modify, mk_state. cbn. now rewrite app_nil_r.
Qed.

Lemma framed_json (r : Response product) :
  framed product W (json r).
Proof.
  unfold json. destruct (body r); [apply framed_ret | apply framed_raise].
Qed.

Lemma framed_getitem {A} (key : string) (field : option A) :
  framed product W (getitem key field).
Proof.
  destruct field; [apply framed_ret | apply framed_raise].
Qed.

Lemma framed_download : framed product W download_current_catalogue.
Proof.
  unfold download_current_catalogue.
  apply framed_bind; [apply framed_get_with_headers |].
  intros response. apply framed_bind; [| intros _; apply framed_json].
  unfold raise_for_status.
  destruct (is_error_status _); [apply framed_raise | apply framed_ret].
Qed.

Lemma framed_fetch_category (c : entry) : framed product W (fetch_category c).
Proof.
  unfold fetch_category.
  apply framed_bind; [apply framed_get_with_headers |].
  intros r. apply framed_bind; [apply framed_json |].
  intros response. apply framed_bind; [apply framed_getitem |].
  intros cards. apply framed_extend.
Qed.

Lemma framed_parse_product_cards : framed product W parse_product_cards.
Proof.
  unfold parse_product_cards.
  apply framed_bind; [apply framed_download |].
  intros document. apply framed_bind.
  - unfold lift. destruct (process_catalogue document);
      [apply framed_ret | apply framed_raise].
  - intros catalogue. apply framed_for_each. apply framed_fetch_category.
Qed.

(** What [parse_product_cards] leaves behind, whether it returns or
    raises: the cards it found after the ones that were there, and
    requests only. *)
Lemma parse_product_cards_effect (s : state product W) :
  exists added new,
    forallb is_get new = true /\
    snd (parse_product_cards s)
    = mk_state (headers (self s)) (product_cards (self s) ++ added)
        (directory (self s)) (world (snd (parse_product_cards s)))
        (calls s ++ new).
Proof.
  destruct s as [[hs cards dir] w cs].
  destruct (framed_parse_product_cards hs dir w cs)
    as (r & added & w' & new & G & E).
  exists added, new. split; [exact G |].
  change (parse_product_cards
            {| self := {| headers := hs; product_cards := cards;
                          directory := dir |};
               world := w; calls := cs |})
    with (parse_product_cards (mk_state hs cards dir w cs)).
  rewrite E. reflexivity.
Qed.

Lemma gets_are_no_sink_writes (new : list (call product)) :
  forallb is_get new = true -> existsb is_sink_write new = false.
Proof.
  induction new as [| c new IH]; simpl; [reflexivity |].
  intros H. apply andb_prop in H as [Hc Hn].
  unfold is_sink_write at 1. rewrite Hc. simpl. now apply IH.
Qed.

Lemma gets_are_no_excel (new : list (call product)) :
  forallb is_get new = true -> existsb is_excel new = false.
Proof.
  induction new as [| c new IH]; simpl; [reflexivity |].
  intros H. apply andb_prop in H as [Hc Hn].
  destruct c; try discriminate. simpl. now apply IH.
Qed.

Lemma inserts_are_no_excel (cards : list product) :
  existsb is_excel (map InsertProductCard cards) = false.
Proof. induction cards as [| c cards IH]; simpl; [reflexivity | exact IH]. Qed.

(** The loop of [write_to_database]: it leaves [self] alone; when it
    returns it has made one insert per card, in order; when it raises,
    some [k] inserts had returned and the next one raised. *)
Lemma insert_loop (l : list product) :
  forall (s : state product W) r s',
    for_each (fun product_card =>
                outside (InsertProductCard product_card)
                        (insert_product_card product_card)) l s = (r, s') ->
    self s' = self s /\
    match r with
    | Ok _ => calls s' = (calls s ++ map InsertProductCard l)%list
    | Raise _ =>
        exists k, (k < List.length l)%nat /\
          calls s' =
          (calls s ++ map InsertProductCard (firstn (S k) l))%list
    end.
Proof.
  induction l as [| x l IH]; intros s r s' H; simpl in H.
  - unfold ret in H. injection H as <- <-. split; [reflexivity |].
    simpl. now rewrite app_nil_r.
  - unfold bind, outside in H.
    destruct (insert_product_card x (world s)) as [[[] | e] w].
    + apply IH in H as [Hs Hc]. cbn [self calls] in Hs, Hc.
      split; [exact Hs |].
      destruct r as [[] | e'].
      * rewrite Hc, <- app_assoc. reflexivity.
      * destruct Hc as [k [Hk Hc]]. exists (S k). split; [simpl; lia |].
        rewrite Hc, <- app_assoc. reflexivity.
    + injection H as <- <-. split; [reflexivity |].
      exists 0%nat. split; [simpl; lia |]. reflexivity.
Qed.

Lemma main_stops_with_parse (s s' : state product W) (e : exn) :
  parse_product_cards s = (Raise e, s') -> main s = (Raise e, s').
Proof. intros H. unfold main, bind. now rewrite H. Qed.


Lemma download_keeps_self (s s' : state product W) r :
  download_current_catalogue s = (r, s') -> self s' = self s.
Proof.
  unfold download_current_catalogue, get_with_headers, bind, get, outside.
  destruct (requests_get _ _ (world s)) as [[response | e] w].
  - unfold raise_for_status, json, raise, ret.
    destruct (is_error_status _); [| destruct (body response)];
      intros H; injection H as _ <-; reflexivity.
  - intros H; injection H as _ <-; reflexivity.
Qed.

(** C7.  [download_current_catalogue] makes one request.  If the request
    raises, that exception is the outcome; if it answers with a 4xx or
    5xx status, the outcome is the [HTTPError] of [raise_for_status];
    otherwise the outcome is the body decoded as JSON.  In each case the
    one request is all that happened (no second attempt), and an
    exception goes through [parse_product_cards] and [main] unchanged. *)
Theorem download_current_catalogue_outcome (s : state product W) :
  let target := "https://search.wb.ru/catalog.json" in
  let request := Get target (headers (self s)) in
  (forall e w,
     requests_get target (headers (self s)) (world s) = (Raise e, w) ->
     download_current_catalogue s = (Raise e, logged s request w)) /\
  (forall response w,
     requests_get target (headers (self s)) (world s) = (Ok response, w) ->
     is_error_status (status_code response) = true ->
     download_current_catalogue s =
     (Raise (HTTPError (status_code response)), logged s request w)) /\
  (forall response w,
     requests_get target (headers (self s)) (world s) = (Ok response, w) ->
     is_error_status (status_code response) = false ->
     download_current_catalogue s =
     (match body response with
      | Some document => Ok document
      | None => Raise JSONDecodeError
      end, logged s request w)) /\
  (forall e s',
     download_current_catalogue s = (Raise e, s') ->
     parse_product_cards s = (Raise e, s') /\ main s = (Raise e, s')).
Proof.
  cbv zeta. repeat split.
  - intros e w H.
    unfold download_current_catalogue, get_with_headers, bind, get, outside.
    now rewrite H.
  - intros response w H Hst.
    unfold download_current_catalogue, get_with_headers, bind, get, outside.
    rewrite H. unfold raise_for_status. now rewrite Hst.
  - intros response w H Hst.
    unfold download_current_catalogue, get_with_headers, bind, get, outside.
    rewrite H. unfold raise_for_status. rewrite Hst.
    unfold ret, json. now destruct (body response).
  - unfold parse_product_cards, bind. now rewrite H.
  - apply main_stops_with_parse.
    unfold parse_product_cards, bind. now rewrite H.
Qed.

(** C4.  When the catalogue has been downloaded and flattened, the
    categories before [c] have been fetched, and the answer to the
    request for [c] decodes to an object without a ['products'] key,
    [parse_product_cards] raises [KeyError: 'products'] right after that
    request; [main] raises the same from the same state, and nothing but
    requests has been made since the start: no insert, no workbook. *)
Theorem missing_products_halts_before_sinks
  (s0 s1 s2 : state product W) (document : json_object product)
  (pre post : list entry) (c : entry)
  (response : Response product) (w3 : W) (answer : json_object product) :
  let target := "https://search.wb.ru/catalog/" ++ entry_url c in
  let s3 := logged s2 (Get target (headers (self s2))) w3 in
  download_current_catalogue s0 = (Ok document, s1) ->
  process_catalogue document = Ok (pre ++ c :: post)%list ->
  for_each fetch_category pre s1 = (Ok tt, s2) ->
  requests_get target (headers (self s2)) (world s2) = (Ok response, w3) ->
  body response = Some answer ->
  products answer = None ->
  parse_product_cards s0 = (Raise (KeyError "products"), s3) /\
  main s0 = (Raise (KeyError "products"), s3) /\
  exists new,
    calls s3 = (calls s0 ++ new)%list /\ existsb is_sink_write new = false.
Proof.
  intros target s3 Hd Hp Hpre Hget Hbody Hmiss.
  assert (E : parse_product_cards s0 = (Raise (KeyError "products"), s3)).
  { unfold parse_product_cards, bind at 1. rewrite Hd.
    unfold bind at 1. rewrite Hp. unfold lift, ret.
    rewrite for_each_app. unfold bind at 1. rewrite Hpre.
    cbn [for_each]. unfold bind at 1.
    unfold fetch_category, get_with_headers, bind, get, outside.
    fold target. rewrite Hget. unfold json. rewrite Hbody.
    unfold ret. rewrite Hmiss. reflexivity. }
  split; [exact E |]. split; [now apply main_stops_with_parse |].
  destruct (parse_product_cards_effect s0) as (added & new & G & Hs).
  rewrite E in Hs. cbn [snd] in Hs.
  exists new. split.
  - rewrite Hs. reflexivity.
  - now apply gets_are_no_sink_writes.
Qed.


Lemma fetch_loop_answers (hs : http_headers) (categories : list entry)
  (w : W) (lists : list (list product)) (w' : W) :
  answers hs categories w lists w' ->
  forall s : state product W,
    headers (self s) = hs -> world s = w ->
    exists s',
      for_each fetch_category categories s = (Ok tt, s') /\
      world s' = w' /\
      product_cards (self s')
      = (product_cards (self s) ++ concat lists)%list.
Proof.
  induction 1 as [w | c categories w w1 w2 response answer cards lists
                      Hget Hbody Hcards _ IH];
    intros s Hhs Hw.
  - exists s. cbn [for_each concat]. unfold ret.
    repeat split; [now symmetry | now rewrite app_nil_r].
  - cbn [for_each]. unfold bind at 1.
    unfold fetch_category, get_with_headers, bind, get, outside.
    subst hs w. rewrite Hget. unfold json. rewrite Hbody.
    unfold ret. rewrite Hcards. cbn [getitem]. unfold ret, extend, modify.
    cbn [self world calls headers product_cards directory].
    match goal with
    | |- exists s', for_each _ _ ?s1 = _ /\ _ =>
        destruct (IH s1 eq_refl eq_refl) as (s' & E & Hw' & Hc)
    end.
    exists s'. repeat split; [exact E | exact Hw' |].
    rewrite Hc. cbn [self product_cards concat]. now rewrite app_assoc.
Qed.

(** C5.  When the catalogue flattens to [categories] and the requests
    for their listings are answered, in that order, with the product
    lists [lists], [parse_product_cards] returns and the product cards
    are the ones that were there followed by the lists' cards, category
    after category, each list in its own order, nothing dropped or
    merged; on a parser that had no cards they are exactly those. *)
Theorem parse_product_cards_concatenates
  (s0 s1 : state product W) (document : json_object product)
  (categories : list entry) (lists : list (list product)) (w2 : W) :
  download_current_catalogue s0 = (Ok document, s1) ->
  process_catalogue document = Ok categories ->
  answers (headers (self s1)) categories (world s1) lists w2 ->
  exists s2,
    parse_product_cards s0 = (Ok tt, s2) /\
    world s2 = w2 /\
    product_cards (self s2)
    = (product_cards (self s0) ++ concat lists)%list /\
    (product_cards (self s0) = [] ->
     product_cards (self s2) = concat lists).
Proof.
  intros Hd Hp Ha.
  destruct (fetch_loop_answers _ _ _ _ _ Ha s1 eq_refl eq_refl)
    as (s2 & E & Hw & Hc).
  exists s2.
  assert (Hself : product_cards (self s1) = product_cards (self s0)).
  { now rewrite (download_keeps_self _ _ _ Hd). }
  repeat split.
  - unfold parse_product_cards, bind. rewrite Hd, Hp. exact E.
  - exact Hw.
  - now rewrite Hc, Hself.
  - intros Hnil. now rewrite Hc, Hself, Hnil.
Qed.

(** C6.  When [parse_product_cards] has returned and
    [write_to_database] raises, [main] raises the same exception from
    the state the database write left: some [k] inserts had returned,
    the next one raised, and nothing follows it; of all the calls of the
    run none is a workbook save or the message [write_to_excel] prints. *)
Theorem database_failure_skips_excel
  (s0 s1 s2 : state product W) (e : exn) :
  parse_product_cards s0 = (Ok tt, s1) ->
  write_to_database s1 = (Raise e, s2) ->
  main s0 = (Raise e, s2) /\
  (exists k, (k < List.length (product_cards (self s1)))%nat /\
     calls s2 =
     (calls s1 ++
      map InsertProductCard (firstn (S k) (product_cards (self s1))))%list) /\
  (exists new,
     calls s2 = (calls s0 ++ new)%list /\ existsb is_excel new = false).
Proof.
  intros Hp Hw.
  assert (Hloop := Hw). unfold write_to_database, bind, get in Hloop.
  apply insert_loop in Hloop as [_ [k [Hk Hc]]].
  split; [| split].
  - unfold main, bind. now rewrite Hp, Hw.
  - now exists k.
  - destruct (parse_product_cards_effect s0) as (added & gets & G & Hs).
    rewrite Hp in Hs. cbn [snd] in Hs.
    exists (gets ++ map InsertProductCard
                      (firstn (S k) (product_cards (self s1))))%list.
    split.
    + rewrite Hc, Hs. cbn [calls mk_state]. now rewrite app_assoc.
    + rewrite existsb_app, (gets_are_no_excel _ G), inserts_are_no_excel.
      reflexivity.
Qed.


(** C10.  [parse_product_cards] only appends: what it leaves, returning
    or raising, is the cards that were there followed by the ones this
    run fetched, and those are the cards the run would have fetched on a
    parser without cards.  Two runs in a row leave the cards that were
    there, then the first run's, then the second run's. *)
Theorem product_cards_append_only (s : state product W) :
  product_cards (self (snd (parse_product_cards s)))
  = (product_cards (self s) ++
     product_cards (self (snd (parse_product_cards (without_cards s)))))%list
  /\
  (forall s1 s2,
     parse_product_cards s = (Ok tt, s1) ->
     parse_product_cards s1 = (Ok tt, s2) ->
     product_cards (self s2)
     = ((product_cards (self s) ++
         product_cards (self (snd (parse_product_cards (without_cards s)))))
        ++ product_cards
             (self (snd (parse_product_cards (without_cards s1)))))%list).
Proof.
  assert (Hone : forall s : state product W,
            product_cards (self (snd (parse_product_cards s)))
            = (product_cards (self s) ++
               product_cards
                 (self (snd (parse_product_cards (without_cards s)))))%list).
  { intros [[hs cards dir] w cs].
    destruct (framed_parse_product_cards hs dir w cs)
      as (r & added & w' & new & _ & E).
    unfold without_cards. cbn [self world calls headers directory].
    change {| self := {| headers := hs; product_cards := cards;
                         directory := dir |};
              world := w; calls := cs |}
      with (mk_state hs cards dir w cs).
    rewrite (E cards), (E []). reflexivity. }
  split; [apply Hone |].
  intros s1 s2 H1 H2.
  pose proof (Hone s) as A. rewrite H1 in A. cbn [snd] in A.
  pose proof (Hone s1) as B. rewrite H2 in B. cbn [snd] in B.
  now rewrite B, A.
Qed.

End Pipeline.

(** ** Runs in scripted worlds *)


(** A whole run at the market. *)
Example main_market :
  run market 10 whole (start "/app") =
  (Ok tt,
   {| self := {| headers := browser_headers;
                 product_cards := ["p1"; "p2"; "p3"];
                 directory := "/app" |};
      world := (["p1"; "p2"; "p3"], ["/app/wb_product_cards.xlsx"]);
      calls :=
        [Get "https://search.wb.ru/catalog.json" (browser_headers);
         Get "https://search.wb.ru/catalog/c1" (browser_headers);
         Get "https://search.wb.ru/catalog/c2" (browser_headers);
         InsertProductCard "p1"; InsertProductCard "p2";
         InsertProductCard "p3";
         SaveWorkbook "/app/wb_product_cards.xlsx" ["p1"; "p2"; "p3"];
         PrintLine "Product cards written to /app/wb_product_cards.xlsx"] |}).
Proof. vm_compute. reflexivity. Qed.

(** The download at an unreachable site, at a site that answers 503
    and at the market, and [main] at the site that answers 503. *)
Lemma download_current_catalogue_outcome_runs :
  run [] 10 download (start "/app")
  = (Raise RequestException,
     logged (start "/app")
       (Get "https://search.wb.ru/catalog.json" browser_headers) ([], []))
  /\
  run market_down 10 download (start "/app")
  = (Raise (HTTPError 503),
     logged (start "/app")
       (Get "https://search.wb.ru/catalog.json" browser_headers) ([], []))
  /\
  run market 10 download (start "/app")
  = (Ok two_categories,
     logged (start "/app")
       (Get "https://search.wb.ru/catalog.json" browser_headers) ([], []))
  /\
  run market_down 10 whole (start "/app")
  = (Raise (HTTPError 503),
     logged (start "/app")
       (Get "https://search.wb.ru/catalog.json" browser_headers) ([], [])).
Proof.
  split; [| split; [| split]].
  - exact (proj1 (download_current_catalogue_outcome string mock_world
                    (interpreter := cpython)
                    (services := scripted (site []) 10) (start "/app"))
             RequestException ([], []) eq_refl).
  - exact (proj1 (proj2 (download_current_catalogue_outcome string mock_world
                    (interpreter := cpython)
                    (services := scripted (site market_down) 10)
                    (start "/app")))
             {| status_code := 503; body := None |} ([], [])
             eq_refl eq_refl).
  - exact (proj1 (proj2 (proj2 (download_current_catalogue_outcome
                    string mock_world
                    (interpreter := cpython)
                    (services := scripted (site market) 10) (start "/app"))))
             (answer_200 two_categories) ([], []) eq_refl eq_refl).
  - refine (proj2 (proj2 (proj2 (proj2 (download_current_catalogue_outcome
                    string mock_world
                    (interpreter := cpython)
                    (services := scripted (site market_down) 10)
                    (start "/app")))) (HTTPError 503) _ _)).
    reflexivity.
Defined.

(** The run in which the second listing has no ['products']: the first
    category's cards were fetched, the database and the disk are
    untouched. *)
Lemma missing_products_halts_before_sinks_market :
  fst (run market_malformed 10 whole (start "/app"))
  = Raise (KeyError "products") /\
  world (snd (run market_malformed 10 whole (start "/app"))) = ([], []) /\
  existsb is_sink_write
    (calls (snd (run market_malformed 10 whole (start "/app")))) = false.
Proof.
  destruct (missing_products_halts_before_sinks string mock_world
              (interpreter := cpython)
              (services := scripted (site market_malformed) 10)
              (start "/app")
              (snd (run market_malformed 10 download (start "/app")))
              (snd (for_each
                      (fetch_category
                         (services := scripted (site market_malformed) 10))
                      [Entry "Root -> C1" "c1"]
                      (snd (run market_malformed 10 download
                              (start "/app")))))
              two_categories
              [Entry "Root -> C1" "c1"] [] (Entry "Root -> C2" "c2")
              (answer_200 (JObject None None None None)) ([], [])
              (JObject None None None None)
              eq_refl eq_refl eq_refl eq_refl eq_refl eq_refl)
    as [_ [Hmain [new [Hcalls Hnew]]]].
  unfold run, whole. rewrite Hmain. cbn [fst snd].
  split; [reflexivity |]. split; [reflexivity |].
  rewrite Hcalls. exact Hnew.
Defined.

(** Categories C1 and C2 with the cards p1, p2 and p3. *)
Lemma parse_product_cards_concatenates_market :
  exists s2,
    run market 10 parse (start "/app") = (Ok tt, s2) /\
    product_cards (self s2) = ["p1"; "p2"; "p3"].
Proof.
  destruct (parse_product_cards_concatenates string mock_world
              (interpreter := cpython)
              (services := scripted (site market) 10)
              (start "/app")
              (snd (run market 10 download (start "/app")))
              two_categories
              [Entry "Root -> C1" "c1"; Entry "Root -> C2" "c2"]
              [["p1"; "p2"]; ["p3"]] ([], [])
              eq_refl eq_refl)
    as [s2 [Hrun [_ [_ Hcards]]]].
  - eapply answers_next with (response := answer_200 (listing ["p1"; "p2"]));
      [reflexivity | reflexivity | reflexivity |].
    eapply answers_next with (response := answer_200 (listing ["p3"]));
      [reflexivity | reflexivity | reflexivity |].
    apply answers_done.
  - exists s2. split; [exact Hrun | exact (Hcards eq_refl)].
Defined.

(** A database that takes one card: the second insert raises, one card
    is stored and no file is written. *)
Lemma database_failure_skips_excel_market :
  run market 1 whole (start "/app")
  = (Raise DatabaseError,
     snd (run market 1 to_database
            (snd (run market 1 parse (start "/app"))))) /\
  world (snd (run market 1 whole (start "/app"))) = (["p1"], []).
Proof.
  destruct (database_failure_skips_excel string mock_world
              (interpreter := cpython)
              (services := scripted (site market) 1)
              (start "/app")
              (snd (run market 1 parse (start "/app")))
              (snd (run market 1 to_database
                      (snd (run market 1 parse (start "/app")))))
              DatabaseError eq_refl eq_refl)
    as [Hmain _].
  split; [exact Hmain |].
  unfold run, whole. rewrite Hmain. reflexivity.
Defined.

(** Two runs at the market on the same parser. *)
Lemma product_cards_append_only_market :
  product_cards
    (self (snd (run market 10 parse
                  (snd (run market 10 parse (start "/app"))))))
  = ["p1"; "p2"; "p3"; "p1"; "p2"; "p3"].
Proof.
  rewrite (proj2 (product_cards_append_only string mock_world
                    (interpreter := cpython)
                    (services := scripted (site market) 10) (start "/app"))
             (snd (run market 10 parse (start "/app")))
             (snd (run market 10 parse
                     (snd (run market 10 parse (start "/app")))))
             eq_refl eq_refl).
  reflexivity.
Defined.

(** C3, on the code.  A listing that comes with status 500 and a body
    that has ['products'] is taken as a listing: [parse_product_cards]
    returns, the card is kept, and [main] goes on to both sinks.  The
    same status at the catalogue endpoint makes
    [download_current_catalogue] raise [HTTPError], because that method
    calls [raise_for_status] and the loop of [parse_product_cards] does
    not. *)
Theorem parse_product_cards_accepts_error_status :
  is_error_status 500 = true /\
  fst (run market_500 10 parse (start "/app")) = Ok tt /\
  product_cards (self (snd (run market_500 10 parse (start "/app"))))
  = ["card"] /\
  fst (run market_500 10 whole (start "/app")) = Ok tt /\
  world (snd (run market_500 10 whole (start "/app")))
  = (["card"], ["/app/wb_product_cards.xlsx"]) /\
  fst (run catalogue_500 10 download (start "/app"))
  = Raise (HTTPError 500).
Proof. repeat split. Qed.

(** * Further properties of the methods *)

(** ** When the flattening returns *)

Lemma forallb_andb {A} (f g : A -> bool) (l : list A) :
  forallb (fun x => f x && g x) l = forallb f l && forallb g l.
Proof.
  induction l as [| x l IH]; simpl; [reflexivity |].
  rewrite IH. destruct (f x), (g x), (forallb f l); reflexivity.
Qed.

(** A loop returns exactly when every body does, and raises only what a
    body raises. *)
Lemma for_each_returns_iff {S A} (body : A -> M S unit) (good : A -> bool)
  (Q : exn -> Prop) (l : list A) :
  Forall (fun x => forall st,
            (fst (body x st) = Ok tt <-> good x = true) /\
            (forall e, fst (body x st) = Raise e -> Q e)) l ->
  forall st,
    (fst (for_each body l st) = Ok tt <-> forallb good l = true) /\
    (forall e, fst (for_each body l st) = Raise e -> Q e).
Proof.
  induction 1 as [| x l Hx _ IH]; intros st; simpl.
  - split; [split; reflexivity | discriminate].
  - unfold bind. destruct (Hx st) as [Hiff Hexn].
    destruct (body x st) as [[[] | e] s1]; cbn [fst] in Hiff, Hexn.
    + rewrite (proj1 Hiff eq_refl). simpl. apply IH.
    + destruct (good x).
      * destruct Hiff as [_ Hback]. discriminate (Hback eq_refl).
      * cbn [fst]. simpl. split; [split; discriminate |].
        intros e' He'. apply Hexn. exact He'.
Qed.

Lemma forallb_over_map {A B} (f : B -> bool) (g : A -> B) (l : list A) :
  forallb f (map g l) = forallb (fun x => f (g x)) l.
Proof.
  induction l as [| x l IH]; simpl; [reflexivity | now rewrite IH].
Qed.

Lemma forallb_height (l : list nat) (d : nat) :
  forallb (fun h => (h <=? d)%nat) l = (list_max l <=? d)%nat.
Proof.
  induction l as [| h l IH]; [reflexivity |].
  cbn [forallb list_max fold_right]. fold (list_max l). rewrite IH.
  destruct (Nat.leb_spec h d), (Nat.leb_spec (list_max l) d),
    (Nat.leb_spec (Nat.max h (list_max l)) d); try reflexivity; lia.
Qed.

Lemma traverse_json_returns_iff {product : Type} (t : json_object product) :
  forall spare parent_name st,
    (fst (traverse_json spare t parent_name st) = Ok tt <->
     leaves_labelled t && parents_named t && (height t <=? spare)%nat
     = true) /\
    (forall e, fst (traverse_json spare t parent_name st) = Raise e ->
               e = KeyError "name" \/ e = KeyError "url" \/
               e = RecursionError).
Proof.
  induction t as [n u ps | n u cs ps IH] using tree_ind;
    intros spare parent_name st.
  - cbn [traverse_json children name url leaves_labelled parents_named
         height Nat.leb].
    destruct n as [n |], u as [u |]; cbn; unfold bind, ret, raise, modify;
      cbn; (split; [split; first [reflexivity | discriminate] |]);
      intros e He; first [discriminate He | injection He as <-; auto].
  - destruct cs as [| c cs].
    + cbn. split; [split; reflexivity | discriminate].
    + change (height (JObject n u (Some (c :: cs)) ps))
        with (S (list_max (map height (c :: cs)))).
      destruct n as [n |].
      * change (leaves_labelled (JObject (Some n) u (Some (c :: cs)) ps))
          with (forallb leaves_labelled (c :: cs)).
        change (parents_named (JObject (Some n) u (Some (c :: cs)) ps))
          with (true && forallb parents_named (c :: cs)).
        cbn [andb].
        cbn [traverse_json children name].
        destruct spare as [| deeper].
        -- cbn [for_each getitem]. unfold bind, ret, raise. cbn [fst].
           cbn [Nat.leb]. rewrite andb_false_r.
           split; [split; discriminate |].
           intros e He. injection He as <-. auto.
        -- cbn [Nat.leb]. rewrite <- forallb_height, forallb_over_map.
           rewrite <- !forallb_andb.
           apply for_each_returns_iff.
           rewrite Forall_forall in IH |- *.
           intros child Hin st'. cbn [getitem]. unfold bind, ret.
           apply (IH child Hin).
      * cbn [traverse_json children name for_each getitem].
        unfold bind, raise. cbn [fst].
        change (parents_named (JObject None u (Some (c :: cs)) ps))
          with (false && forallb parents_named (c :: cs)).
        cbn [andb]. rewrite andb_false_r. cbn [andb].
        split; [split; discriminate |].
        intros e He. injection He as <-. now left.
Qed.

(** X1.  On a catalogue of objects whose names and urls are strings,
    [process_catalogue] returns exactly when every leaf carries a name
    and a url, every node with at least one child carries a name, and
    the levels below the root are no more than the calls the interpreter
    lets [traverse_json] nest; otherwise it raises, and what it raises
    is [KeyError: 'name'], [KeyError: 'url'] or [RecursionError]. *)
Theorem process_catalogue_returns_iff {product : Type}
  {interpreter : Interpreter} (catalogue : json_object product) :
  ((exists entries, process_catalogue catalogue = Ok entries) <->
   leaves_labelled catalogue && parents_named catalogue &&
   (height catalogue <=? spare_frames)%nat = true) /\
  (forall e, process_catalogue catalogue = Raise e ->
             e = KeyError "name" \/ e = KeyError "url" \/
             e = RecursionError).
Proof.
  destruct (traverse_json_returns_iff catalogue spare_frames "" [])
    as [Hiff Hexn].
  unfold process_catalogue.
  destruct (traverse_json spare_frames catalogue "" [])
    as [[[] | e] entries]; cbn [fst] in Hiff, Hexn.
  - split.
    + split; [intros _; now apply Hiff | intros _; now exists entries].
    + discriminate.
  - split.
    + split.
      * intros [entries' H]. discriminate H.
      * intros H. apply Hiff in H. discriminate H.
    + intros e' He'. injection He' as <-. now apply Hexn.
Qed.

(** ** The prefix only prefixes *)

Lemma prepend_empty (l : list entry) : map (prepend "") l = l.
Proof.
  induction l as [| [n u] l IH]; simpl; [reflexivity | now rewrite IH].
Qed.

Lemma for_each_shift {A} (body : string -> A -> M (list entry) unit)
  (l : list A) :
  Forall (fun x => exists r emitted, forall p st,
            body p x st = (r, (st ++ map (prepend p) emitted)%list)) l ->
  exists r emitted, forall p st,
    for_each (body p) l st = (r, (st ++ map (prepend p) emitted)%list).
Proof.
  induction 1 as [| x l Hx _ IH].
  - exists (Ok tt), []. intros p st. simpl. unfold ret.
    now rewrite app_nil_r.
  - destruct Hx as (r1 & e1 & H1). destruct IH as (r2 & e2 & H2).
    destruct r1 as [[] | e].
    + exists r2, (e1 ++ e2)%list. intros p st. simpl. unfold bind.
      rewrite H1, H2. now rewrite map_app, app_assoc.
    + exists (Raise e), e1. intros p st. simpl. unfold bind.
      now rewrite H1.
Qed.

(** The outcome of a traversal does not depend on what comes before the
    prefix, and what comes before it is only copied before each name. *)
Lemma traverse_json_shift {product : Type} (t : json_object product) :
  forall spare q, exists r emitted, forall p st,
    traverse_json spare t (p ++ q) st
    = (r, (st ++ map (prepend p) emitted)%list).
Proof.
  induction t as [n u ps | n u cs ps IH] using tree_ind; intros spare q.
  - cbn [traverse_json children name url].
    destruct n as [n |]; cbn [getitem]; unfold bind, ret, raise, modify.
    + destruct u as [u |].
      * exists (Ok tt), [Entry (q ++ n) u]. intros p st.
        cbn [map]. unfold prepend. cbn [entry_name entry_url].
        now rewrite append_assoc.
      * exists (Raise (KeyError "url")), []. intros p st.
        now rewrite app_nil_r.
    + exists (Raise (KeyError "name")), []. intros p st.
      now rewrite app_nil_r.
  - cbn [traverse_json children name].
    apply (for_each_shift
             (fun p child =>
                own <- getitem "name" n ;;
                match spare with
                | O => raise RecursionError
                | S deeper =>
                    traverse_json deeper child
                      (((p ++ q) ++ own) ++ " -> ")
                end)).
    rewrite Forall_forall in IH |- *.
    intros child Hin.
    destruct n as [n |]; cbn [getitem]; unfold bind, ret, raise.
    + destruct spare as [| deeper].
      * exists (Raise RecursionError), []. intros p st.
        now rewrite app_nil_r.
      * destruct (IH child Hin deeper ((q ++ n) ++ " -> "))
          as (r & emitted & H).
        exists r, emitted. intros p st.
        rewrite <- H. now rewrite !append_assoc.
    + exists (Raise (KeyError "name")), []. intros p st.
      now rewrite app_nil_r.
Qed.

(** X2.  Traversing a tree under a prefix has the outcome of traversing
    it on its own (it returns, or raises the same exception), and
    appends the same entries, after the ones that were there, with the
    prefix put before each name; the urls are the same. *)
Theorem traverse_json_under_prefix {product : Type} (spare : nat)
  (t : json_object product) (parent_name : string)
  (flattened_catalogue : list entry) :
  traverse_json spare t parent_name flattened_catalogue
  = (fst (traverse_json spare t "" []),
     (flattened_catalogue ++
      map (prepend parent_name) (snd (traverse_json spare t "" [])))%list).
Proof.
  destruct (traverse_json_shift t spare "") as (r & emitted & H).
  pose proof (H "" []) as H0. cbn [String.append app] in H0.
  rewrite prepend_empty in H0.
  pose proof (H parent_name flattened_catalogue) as H1.
  rewrite append_empty_r in H1.
  now rewrite H1, H0.
Qed.

(** X3.  Flattening composes: when the interpreter lets one more call
    be nested, and every child of a named root flattens on its own with
    that one call fewer to spare, the root flattens to its children's
    flattenings put one after the other in the order of the children,
    each name preceded by the root's name and the separator. *)
Theorem process_catalogue_composes {product : Type}
  {interpreter : Interpreter}
  (n : string) (u : option string) (cs : list (json_object product))
  (ps : option (list product)) :
  0 < spare_frames ->
  Forall (fun c => exists entries,
            process_catalogue (interpreter := below interpreter) c
            = Ok entries) cs ->
  process_catalogue (JObject (Some n) u (Some cs) ps)
  = Ok (flat_map
          (fun c => map (prepend (n ++ " -> "))
                      (flattened (interpreter := below interpreter) c))
          cs).
Proof.
  intros Hspare Hcs. unfold flattened, process_catalogue in *.
  cbn [below spare_frames] in *.
  destruct spare_frames as [| deeper]; [lia |]. cbn [Nat.pred] in *.
  cbn [traverse_json children name].
  rewrite (for_each_appends _
             (fun c =>
                map (prepend (n ++ " -> "))
                  match
                    match traverse_json deeper c "" [] with
                    | (Ok _, flattened_catalogue) => Ok flattened_catalogue
                    | (Raise e, _) => Raise e
                    end
                  with
                  | Ok entries => entries
                  | Raise _ => []
                  end)).
  - reflexivity.
  - rewrite Forall_forall in Hcs |- *. intros c Hin st.
    cbn [getitem]. unfold bind, ret. cbn [String.append].
    destruct (traverse_json_shift c deeper "") as (r & emitted & H).
    pose proof (H "" []) as H0. cbn [String.append app] in H0.
    rewrite prepend_empty in H0.
    pose proof (H (n ++ " -> ") st) as H1.
    rewrite append_empty_r in H1. rewrite H1.
    destruct (Hcs c Hin) as [entries Hc].
    rewrite H0 in Hc |- *.
    destruct r as [[] | e]; [| discriminate Hc].
    reflexivity.
Qed.

(** The two-level catalogue, from the flattenings of its two children. *)
Lemma process_catalogue_composes_shop :
  process_catalogue shop
  = Ok (map (prepend "Root -> ") [Entry "Shoes" "shoes123"] ++
        map (prepend "Root -> ") [Entry "Bags -> Totes" "totes55"])%list.
Proof.
  unfold shop.
  rewrite (process_catalogue_composes (interpreter := cpython) "Root" None
             [leaf "Shoes" "shoes123";
              JObject (Some "Bags") None (Some [leaf "Totes" "totes55"])
                None] None).
  - reflexivity.
  - cbv [spare_frames cpython]. lia.
  - repeat constructor.
    + now exists [Entry "Shoes" "shoes123"].
    + now exists [Entry "Bags -> Totes" "totes55"].
Defined.

(** X4.  When [process_catalogue] returns, every flattened name begins
    with the root's own name: no separator, and nothing else, comes
    before it. *)
Theorem flattened_names_begin_with_root {product : Type}
  {interpreter : Interpreter}
  (catalogue : json_object product) (n : string) (entries : list entry) :
  name catalogue = Some n ->
  process_catalogue catalogue = Ok entries ->
  Forall (fun e => exists rest, entry_name e = n ++ rest) entries.
Proof.
  intros Hn Hp.
  unfold process_catalogue in Hp.
  destruct (traverse_json spare_frames catalogue "" [])
    as [[[] | e] st] eqn:Ht; [| discriminate Hp].
  injection Hp as <-.
  destruct catalogue as [n' u cs ps]. cbn [name] in Hn. subst n'.
  destruct cs as [cs |].
  - cbn [traverse_json children name] in Ht.
    assert (Hext : exists emitted',
               snd (for_each
                      (fun child =>
                         own <- getitem "name" (Some n) ;;
                         match spare_frames with
                         | O => raise RecursionError
                         | S deeper =>
                             traverse_json deeper child
                               (("" ++ own) ++ " -> ")
                         end)
                      cs []) = ([] ++ emitted')%list /\
               Forall (fun e => exists rest, entry_name e = n ++ rest)
                      emitted').
    { apply for_each_extends. rewrite Forall_forall. intros child _ st'.
      cbn [getitem]. unfold bind, ret. cbn [String.append].
      destruct spare_frames as [| deeper].
      - exists []. unfold raise. cbn [snd].
        split; [now rewrite app_nil_r | constructor].
      - destruct (traverse_json_extends child deeper (n ++ " -> ") st')
          as [em [Ee Qe]].
        exists em. split; [exact Ee |].
        eapply Forall_impl; [| exact Qe].
        intros e [rest Hrest]. exists (" -> " ++ rest).
        now rewrite Hrest, append_assoc. }
    destruct Hext as [emitted' [E' Q']].
    rewrite Ht in E'. cbn [snd app] in E'. now subst emitted'.
  - cbn [traverse_json children name url getitem] in Ht.
    unfold bind, ret, raise, modify in Ht.
    destruct u as [u |]; [| discriminate Ht].
    injection Ht as <-. repeat constructor. exists "".
    cbn [entry_name app String.append]. now rewrite append_empty_r.
Qed.

(** The two-level catalogue: both names begin with ["Root"]. *)
Lemma flattened_names_begin_with_root_shop :
  Forall (fun e => exists rest, entry_name e = "Root" ++ rest)
         [Entry "Root -> Shoes" "shoes123";
          Entry "Root -> Bags -> Totes" "totes55"].
Proof.
  exact (flattened_names_begin_with_root (interpreter := cpython)
           shop "Root" _ eq_refl eq_refl).
Defined.

(** ** The requests and the sinks *)

Section Sinks.

Variable product : Type.
Variable W : Type.
Context {services : Collaborators product W}.
Context {interpreter : Interpreter}.

Lemma download_state (s s' : state product W) r :
  download_current_catalogue s = (r, s') ->
  s' = logged s (catalogue_request (headers (self s))) (world s').
Proof.
  unfold download_current_catalogue, get_with_headers, bind, get, outside.
  unfold catalogue_request, logged.
  destruct (requests_get _ _ (world s)) as [[response | e] w].
  - unfold raise_for_status, json, raise, ret.
    destruct (is_error_status _); [| destruct (body response)];
      intros H; injection H as _ <-; reflexivity.
  - intros H; injection H as _ <-; reflexivity.
Qed.

(** The loop of [parse_product_cards] over answered requests: the whole
    state it leaves. *)
Lemma fetch_loop_state (hs : http_headers) (categories : list entry)
  (w : W) (lists : list (list product)) (w' : W) :
  answers hs categories w lists w' ->
  forall cards dir cs,
    for_each fetch_category categories (mk_state hs cards dir w cs)
    = (Ok tt,
       mk_state hs (cards ++ concat lists) dir w'
         (cs ++ map (listing_request hs) categories)).
Proof.
  induction 1 as [w | c categories w w1 w2 response answer cards' lists
                      Hget Hbody Hcards _ IH];
    intros cards dir cs.
  - cbn [for_each concat map]. unfold ret. now rewrite !app_nil_r.
  - cbn [for_each]. unfold bind at 1.
    unfold fetch_category, get_with_headers, bind, get, outside.
    cbn [mk_state self world calls headers product_cards directory].
    rewrite Hget. unfold json. rewrite Hbody.
    unfold ret. rewrite Hcards. cbn [getitem]. unfold ret, extend, modify.
    cbn [self world calls headers product_cards directory].
    fold (mk_state hs (cards ++ cards') dir w1
            (cs ++ [Get ("https://search.wb.ru/catalog/" ++ entry_url c)
                      hs])).
    rewrite IH. unfold listing_request. cbn [concat map].
    now rewrite <- !app_assoc.
Qed.

(** X5.  When the catalogue flattens to [categories] and every listing
    request is answered with a list, [parse_product_cards] makes one
    request for the catalogue and then exactly one request per flattened
    entry, in the order of the entries, each for
    [https://search.wb.ru/catalog/] followed by the entry's url and each
    with the parser's headers; it makes no other call, and leaves the
    headers and the directory as they were. *)
Theorem parse_product_cards_requests
  (s0 s1 : state product W) (document : json_object product)
  (categories : list entry) (lists : list (list product)) (w2 : W) :
  download_current_catalogue s0 = (Ok document, s1) ->
  process_catalogue document = Ok categories ->
  answers (headers (self s0)) categories (world s1) lists w2 ->
  parse_product_cards s0
  = (Ok tt,
     mk_state (headers (self s0))
       (product_cards (self s0) ++ concat lists)
       (directory (self s0)) w2
       (calls s0 ++
        catalogue_request (headers (self s0))
          :: map (listing_request (headers (self s0))) categories)).
Proof.
  intros Hd Hp Ha.
  unfold parse_product_cards, bind. rewrite Hd, Hp. unfold lift, ret.
  rewrite (download_state _ _ _ Hd).
  destruct s0 as [[hs cards dir] w cs].
  cbn [logged self world calls headers product_cards directory] in *.
  change (logged _ (catalogue_request hs) (world s1))
    with (mk_state hs cards dir (world s1) (cs ++ [catalogue_request hs])).
  rewrite (fetch_loop_state _ _ _ _ _ Ha).
  now rewrite <- app_assoc.
Qed.

(** X6.  The loop stops at the first request that raises: when the
    listings of the entries [pre] are answered and the request for the
    next entry [c] raises, [parse_product_cards] raises that exception;
    the cards of [pre] have been appended and stay, and no request is
    made for the entries after [c]. *)
Theorem parse_product_cards_stops_at_first_failure
  (s0 s1 : state product W) (document : json_object product)
  (pre post : list entry) (c : entry) (lists : list (list product))
  (w2 w3 : W) (e : exn) :
  download_current_catalogue s0 = (Ok document, s1) ->
  process_catalogue document = Ok (pre ++ c :: post)%list ->
  answers (headers (self s0)) pre (world s1) lists w2 ->
  requests_get ("https://search.wb.ru/catalog/" ++ entry_url c)
    (headers (self s0)) w2 = (Raise e, w3) ->
  parse_product_cards s0
  = (Raise e,
     mk_state (headers (self s0))
       (product_cards (self s0) ++ concat lists)
       (directory (self s0)) w3
       (calls s0 ++
        catalogue_request (headers (self s0))
          :: map (listing_request (headers (self s0))) (pre ++ [c]))).
Proof.
  intros Hd Hp Ha Hget.
  unfold parse_product_cards, bind at 1. rewrite Hd.
  unfold bind at 1. rewrite Hp. unfold lift, ret.
  rewrite (download_state _ _ _ Hd).
  destruct s0 as [[hs cards dir] w cs].
  cbn [logged self world calls headers product_cards directory] in *.
  change (logged _ (catalogue_request hs) (world s1))
    with (mk_state hs cards dir (world s1) (cs ++ [catalogue_request hs])).
  rewrite for_each_app. unfold bind at 1.
  rewrite (fetch_loop_state _ _ _ _ _ Ha).
  cbn [for_each]. unfold bind at 1.
  unfold fetch_category, get_with_headers, bind, get, outside.
  cbn [mk_state self world calls headers product_cards directory].
  rewrite Hget. unfold listing_request.
  rewrite map_app. cbn [map]. now rewrite <- !app_assoc.
Qed.

(** X7.  [write_to_database] leaves the parser's attributes alone, and
    when it returns it has made exactly one insert per product card, in
    the order of the cards, and no other call (none at all when there
    are no cards). *)
Theorem write_to_database_inserts_all (s s' : state product W) :
  write_to_database s = (Ok tt, s') ->
  self s' = self s /\
  calls s' = (calls s ++ map InsertProductCard (product_cards (self s)))%list.
Proof.
  intros H. unfold write_to_database, bind, get in H.
  now apply insert_loop in H.
Qed.

(** What [write_to_excel] does: one save of all the cards at the file
    in the parser's directory; the message is printed when the save
    returns, and only then. *)
Lemma write_to_excel_outcome (s : state product W) :
  let file := path_join (directory (self s)) "wb_product_cards.xlsx" in
  let save := SaveWorkbook file (product_cards (self s)) in
  write_to_excel s
  = match workbook_save file (product_cards (self s)) (world s) with
    | (Ok _, w) =>
        (Ok tt,
         logged (logged s save w)
           (PrintLine ("Product cards written to " ++ file)) w)
    | (Raise e, w) => (Raise e, logged s save w)
    end.
Proof.
  cbv zeta. unfold write_to_excel, bind, get, outside, logged, ret.
  destruct (workbook_save _ _ (world s)) as [[[] | e] w]; reflexivity.
Qed.

(** X8.  A run of [main] that returns has made, in this order: requests
    only; then one insert per product card, in the order of the cards;
    then one save of the workbook, holding the same cards in the same
    order, at [wb_product_cards.xlsx] in the parser's directory; then
    the message.  Both sinks have received the same cards, and the
    parser's headers and directory are as they were. *)
Theorem main_returns_trace (s0 s3 : state product W) :
  main s0 = (Ok tt, s3) ->
  let file := path_join (directory (self s0)) "wb_product_cards.xlsx" in
  headers (self s3) = headers (self s0) /\
  directory (self s3) = directory (self s0) /\
  exists gets,
    forallb is_get gets = true /\
    calls s3 =
    (calls s0 ++ gets ++
     map InsertProductCard (product_cards (self s3)) ++
     [SaveWorkbook file (product_cards (self s3));
      PrintLine ("Product cards written to " ++ file)])%list.
Proof.
  intros H. cbv zeta. unfold main, bind in H.
  destruct (parse_product_cards_effect product W s0)
    as (added & gets & G & Hs1).
  destruct (parse_product_cards s0) as [[[] | e1] s1]; [| discriminate H].
  cbn [snd] in Hs1.
  destruct (write_to_database s1) as [[[] | e2] s2] eqn:Hdb;
    [| discriminate H].
  unfold write_to_database, bind, get in Hdb.
  apply insert_loop in Hdb as [Hself2 Hcalls2].
  rewrite write_to_excel_outcome in H.
  destruct (workbook_save _ _ (world s2)) as [[[] | e3] w3];
    [| discriminate H].
  injection H as <-.
  cbn [logged self calls]. rewrite Hself2, Hcalls2, Hs1.
  cbn [mk_state self calls headers directory product_cards].
  split; [reflexivity |]. split; [reflexivity |].
  exists gets. split; [exact G |].
  now rewrite <- !app_assoc.
Qed.

(** X9.  The database write is not undone when the workbook cannot be
    saved: when the cards were fetched, every insert returned and the
    save raises, [main] raises that exception; every card has been
    inserted, the save was attempted once, and the message is not
    printed. *)
Theorem excel_failure_keeps_inserts
  (s0 s1 s2 : state product W) (e : exn) (w3 : W) :
  let file := path_join (directory (self s2)) "wb_product_cards.xlsx" in
  parse_product_cards s0 = (Ok tt, s1) ->
  write_to_database s1 = (Ok tt, s2) ->
  workbook_save file (product_cards (self s2)) (world s2) = (Raise e, w3) ->
  main s0
  = (Raise e,
     logged s2 (SaveWorkbook file (product_cards (self s2))) w3) /\
  calls (logged s2 (SaveWorkbook file (product_cards (self s2))) w3)
  = (calls s1 ++ map InsertProductCard (product_cards (self s2)) ++
     [SaveWorkbook file (product_cards (self s2))])%list.
Proof.
  intros file Hp Hdb Hsave. split.
  - unfold main, bind. rewrite Hp, Hdb.
    rewrite write_to_excel_outcome. fold file. now rewrite Hsave.
  - unfold write_to_database, bind, get in Hdb.
    apply insert_loop in Hdb as [Hself Hcalls].
    cbn [logged calls]. rewrite Hcalls, Hself. now rewrite <- app_assoc.
Qed.

(** X10.  Whatever the world answers, and whether it returns or raises,
    [parse_product_cards] leaves the headers and the directory as they
    were, keeps the cards that were there at the front of the product
    cards, and makes requests only: it never calls the database or the
    workbook. *)
Theorem parse_product_cards_keeps_parser (s : state product W) :
  headers (self (snd (parse_product_cards s))) = headers (self s) /\
  directory (self (snd (parse_product_cards s))) = directory (self s) /\
  firstn (List.length (product_cards (self s)))
         (product_cards (self (snd (parse_product_cards s))))
  = product_cards (self s) /\
  exists new,
    calls (snd (parse_product_cards s)) = (calls s ++ new)%list /\
    forallb is_get new = true.
Proof.
  destruct (parse_product_cards_effect product W s)
    as (added & new & G & Hs).
  rewrite Hs. cbn [mk_state self calls headers directory product_cards].
  split; [reflexivity |]. split; [reflexivity |]. split.
  - rewrite firstn_app, Nat.sub_diag, firstn_all. cbn [firstn].
    now rewrite app_nil_r.
  - now exists new.
Qed.

(** X11.  A catalogue whose root has an empty ['children'] list is
    accepted in silence: [parse_product_cards] returns after the one
    request for the catalogue, with no listing request and no new
    card. *)
Theorem parse_product_cards_empty_catalogue
  (s0 s1 : state product W) (document : json_object product) :
  download_current_catalogue s0 = (Ok document, s1) ->
  children document = Some [] ->
  parse_product_cards s0 = (Ok tt, s1) /\
  self s1 = self s0 /\
  calls s1 = (calls s0 ++ [catalogue_request (headers (self s0))])%list.
Proof.
  intros Hd Hc. split; [| split].
  - unfold parse_product_cards, bind. rewrite Hd.
    destruct document as [n u cs ps]. cbn [children] in Hc. subst cs.
    reflexivity.
  - now rewrite (download_state _ _ _ Hd).
  - now rewrite (download_state _ _ _ Hd).
Qed.

(** X12.  Whatever makes [parse_product_cards] raise, [main] raises the
    same exception from the same state, and nothing has been written:
    every call made since the start is a request. *)
Theorem main_stops_when_fetching_fails
  (s0 s1 : state product W) (e : exn) :
  parse_product_cards s0 = (Raise e, s1) ->
  main s0 = (Raise e, s1) /\
  exists new,
    calls s1 = (calls s0 ++ new)%list /\ existsb is_sink_write new = false.
Proof.
  intros H. split; [now apply main_stops_with_parse |].
  destruct (parse_product_cards_effect product W s0)
    as (added & new & G & Hs).
  rewrite H in Hs. cbn [snd] in Hs.
  exists new. split; [now rewrite Hs | now apply gets_are_no_sink_writes].
Qed.

End Sinks.

(** ** The further properties in scripted worlds *)

(** The two-level catalogue flattens, being complete. *)
Lemma process_catalogue_returns_iff_shop :
  exists entries, process_catalogue shop = Ok entries.
Proof.
  exact (proj2 (proj1 (process_catalogue_returns_iff shop)) eq_refl).
Defined.

(** At the market: the catalogue, then C1, then C2. *)
Lemma parse_product_cards_requests_market :
  run market 10 parse (start "/app")
  = (Ok tt,
     mk_state browser_headers ["p1"; "p2"; "p3"] "/app" ([], [])
       [Get "https://search.wb.ru/catalog.json" browser_headers;
        Get "https://search.wb.ru/catalog/c1" browser_headers;
        Get "https://search.wb.ru/catalog/c2" browser_headers]).
Proof.
  refine (parse_product_cards_requests string mock_world
            (interpreter := cpython)
            (services := scripted (site market) 10)
            (start "/app")
            (snd (run market 10 download (start "/app")))
            two_categories
            [Entry "Root -> C1" "c1"; Entry "Root -> C2" "c2"]
            [["p1"; "p2"]; ["p3"]] ([], [])
            eq_refl eq_refl _).
  eapply answers_next with (response := answer_200 (listing ["p1"; "p2"]));
    [reflexivity | reflexivity | reflexivity |].
  eapply answers_next with (response := answer_200 (listing ["p3"]));
    [reflexivity | reflexivity | reflexivity |].
  apply answers_done.
Defined.

(** The second category is unreachable: the cards of the first stay. *)
Lemma parse_product_cards_stops_at_first_failure_market :
  run market_partial 10 parse (start "/app")
  = (Raise RequestException,
     mk_state browser_headers ["p1"; "p2"] "/app" ([], [])
       [Get "https://search.wb.ru/catalog.json" browser_headers;
        Get "https://search.wb.ru/catalog/c1" browser_headers;
        Get "https://search.wb.ru/catalog/c2" browser_headers]).
Proof.
  refine (parse_product_cards_stops_at_first_failure string mock_world
            (interpreter := cpython)
            (services := scripted (site market_partial) 10)
            (start "/app")
            (snd (run market_partial 10 download (start "/app")))
            two_categories
            [Entry "Root -> C1" "c1"] [] (Entry "Root -> C2" "c2")
            [["p1"; "p2"]] ([], []) ([], []) RequestException
            eq_refl eq_refl _ eq_refl).
  eapply answers_next with (response := answer_200 (listing ["p1"; "p2"]));
    [reflexivity | reflexivity | reflexivity |].
  apply answers_done.
Defined.

(** The three cards of the market go to the database in order. *)
Lemma write_to_database_inserts_all_market :
  calls (snd (run market 10 to_database
                (snd (run market 10 parse (start "/app")))))
  = (calls (snd (run market 10 parse (start "/app"))) ++
     [InsertProductCard "p1"; InsertProductCard "p2";
      InsertProductCard "p3"])%list.
Proof.
  exact (proj2 (write_to_database_inserts_all string mock_world
                  (services := scripted (site market) 10)
                  (snd (run market 10 parse (start "/app")))
                  (snd (run market 10 to_database
                          (snd (run market 10 parse (start "/app")))))
                  eq_refl)).
Defined.

(** A whole run at the market, as a trace. *)
Lemma main_returns_trace_market :
  exists gets,
    forallb is_get gets = true /\
    calls (snd (run market 10 whole (start "/app")))
    = (gets ++
       [InsertProductCard "p1"; InsertProductCard "p2";
        InsertProductCard "p3";
        SaveWorkbook "/app/wb_product_cards.xlsx" ["p1"; "p2"; "p3"];
        PrintLine "Product cards written to /app/wb_product_cards.xlsx"])%list.
Proof.
  destruct (main_returns_trace string mock_world
              (interpreter := cpython)
              (services := scripted (site market) 10)
              (start "/app") (snd (run market 10 whole (start "/app")))
              eq_refl) as [_ [_ [gets [G Hcalls]]]].
  exists gets. split; [exact G | exact Hcalls].
Defined.

(** The disk is full: the three cards are in the database, no file. *)
Lemma excel_failure_keeps_inserts_market :
  fst (main (interpreter := cpython)
         (services := scripted_disk_full (site market) 10) (start "/app"))
  = Raise OSError /\
  world (snd (main (interpreter := cpython)
                (services := scripted_disk_full (site market) 10)
                (start "/app")))
  = (["p1"; "p2"; "p3"], []).
Proof.
  destruct (excel_failure_keeps_inserts string mock_world
              (interpreter := cpython)
              (services := scripted_disk_full (site market) 10)
              (start "/app")
              (snd (parse_product_cards (interpreter := cpython)
                      (services := scripted_disk_full (site market) 10)
                      (start "/app")))
              (snd (write_to_database
                      (services := scripted_disk_full (site market) 10)
                      (snd (parse_product_cards (interpreter := cpython)
                              (services :=
                                 scripted_disk_full (site market) 10)
                              (start "/app")))))
              OSError (["p1"; "p2"; "p3"], [])
              eq_refl eq_refl eq_refl) as [Hmain _].
  split.
  - exact (f_equal fst Hmain).
  - exact (f_equal (fun r => world (snd r)) Hmain).
Defined.

(** The catalogue with no children: one request and nothing else. *)
Lemma parse_product_cards_empty_catalogue_market :
  run market_empty 10 parse (start "/app")
  = (Ok tt,
     mk_state browser_headers [] "/app" ([], [])
       [Get "https://search.wb.ru/catalog.json" browser_headers]).
Proof.
  exact (proj1 (parse_product_cards_empty_catalogue string mock_world
                  (interpreter := cpython)
                  (services := scripted (site market_empty) 10)
                  (start "/app")
                  (snd (run market_empty 10 download (start "/app")))
                  empty_catalogue eq_refl eq_refl)).
Defined.

(** The catalogue endpoint answers 503: [main] stops, nothing written. *)
Lemma main_stops_when_fetching_fails_market :
  fst (run market_down 10 whole (start "/app")) = Raise (HTTPError 503) /\
  world (snd (run market_down 10 whole (start "/app"))) = ([], []).
Proof.
  destruct (main_stops_when_fetching_fails string mock_world
              (interpreter := cpython)
              (services := scripted (site market_down) 10)
              (start "/app")
              (snd (run market_down 10 parse (start "/app")))
              (HTTPError 503) eq_refl) as [Hmain _].
  unfold run, whole. rewrite Hmain. split; reflexivity.
Defined.

(** ** Runs on an empty catalogue and runs in a row *)

Section Runs.

Variable product : Type.
Variable W : Type.
Context {services : Collaborators product W}.
Context {interpreter : Interpreter}.

Lemma parse_product_cards_adds (s : state product W) :
  product_cards (self (snd (parse_product_cards s)))
  = (product_cards (self s) ++
     product_cards (self (snd (parse_product_cards (without_cards s)))))%list.
Proof.
  destruct s as [[hs cards dir] w cs].
  destruct (framed_parse_product_cards product W hs dir w cs)
    as (r & added & w' & new & _ & E).
  unfold without_cards. cbn [self world calls headers directory].
  change {| self := {| headers := hs; product_cards := cards;
                       directory := dir |};
            world := w; calls := cs |}
    with (mk_state hs cards dir w cs).
  rewrite (E cards), (E []). reflexivity.
Qed.

(** X13.  On a new parser, a catalogue whose root has an empty
    ['children'] list still gives a workbook: [main] returns after the
    one request, no insert, one save of a workbook without cards, and
    the message. *)
Theorem main_empty_catalogue
  (s0 s1 : state product W) (document : json_object product) (w2 : W) :
  let file := path_join (directory (self s0)) "wb_product_cards.xlsx" in
  product_cards (self s0) = [] ->
  download_current_catalogue s0 = (Ok document, s1) ->
  children document = Some [] ->
  workbook_save file [] (world s1) = (Ok tt, w2) ->
  exists s3,
    main s0 = (Ok tt, s3) /\
    world s3 = w2 /\
    calls s3 =
    (calls s0 ++
     [catalogue_request (headers (self s0));
      SaveWorkbook file [];
      PrintLine ("Product cards written to " ++ file)])%list.
Proof.
  intros file Hnil Hd Hc Hsave.
  assert (Hp : parse_product_cards s0 = (Ok tt, s1)).
  { unfold parse_product_cards, bind. rewrite Hd.
    destruct document as [n u cs ps]. cbn [children] in Hc. subst cs.
    reflexivity. }
  assert (Hself : self s1 = self s0)
    by now rewrite (download_state _ _ _ _ _ Hd).
  assert (Hcalls : calls s1 =
            (calls s0 ++ [catalogue_request (headers (self s0))])%list)
    by now rewrite (download_state _ _ _ _ _ Hd).
  unfold main, bind. rewrite Hp.
  unfold write_to_database, bind, get. rewrite Hself, Hnil.
  cbn [for_each]. unfold ret.
  rewrite write_to_excel_outcome. rewrite Hself, Hnil. fold file.
  rewrite Hsave.
  eexists. split; [reflexivity |]. split; [reflexivity |].
  cbn [logged calls]. rewrite Hcalls. now rewrite <- !app_assoc.
Qed.

(** X14.  The cards of an earlier run are inserted again: when
    [parse_product_cards] returns on a parser that already holds cards
    and [write_to_database] then returns, the inserts are the cards that
    were there before the fetch, followed by the cards this fetch
    found. *)
Theorem write_to_database_repeats_earlier_cards
  (s s1 s2 : state product W) :
  parse_product_cards s = (Ok tt, s1) ->
  write_to_database s1 = (Ok tt, s2) ->
  calls s2 =
  (calls s1 ++
   map InsertProductCard (product_cards (self s)) ++
   map InsertProductCard
     (product_cards (self (snd (parse_product_cards (without_cards s))))))%list.
Proof.
  intros Hp Hdb.
  unfold write_to_database, bind, get in Hdb.
  apply insert_loop in Hdb as [_ Hcalls].
  pose proof (parse_product_cards_adds s) as Hadd.
  rewrite Hp in Hadd. cbn [snd] in Hadd.
  now rewrite Hcalls, Hadd, map_app.
Qed.

End Runs.

(** The empty catalogue: a workbook without cards is written. *)
Lemma main_empty_catalogue_market :
  exists s3,
    run market_empty 10 whole (start "/app") = (Ok tt, s3) /\
    world s3 = ([], ["/app/wb_product_cards.xlsx"]) /\
    calls s3 =
    [Get "https://search.wb.ru/catalog.json" browser_headers;
     SaveWorkbook "/app/wb_product_cards.xlsx" [];
     PrintLine "Product cards written to /app/wb_product_cards.xlsx"].
Proof.
  exact (main_empty_catalogue string mock_world
           (interpreter := cpython)
           (services := scripted (site market_empty) 10)
           (start "/app")
           (snd (run market_empty 10 download (start "/app")))
           empty_catalogue ([], ["/app/wb_product_cards.xlsx"])
           eq_refl eq_refl eq_refl eq_refl).
Defined.

(** A parser that holds the three cards of an earlier run fetches at
    the market again: the database write inserts the three earlier
    cards, then the three new ones. *)
Lemma write_to_database_repeats_earlier_cards_market :
  calls (snd (run market 10 to_database
                (snd (run market 10 parse second_start))))
  = (calls (snd (run market 10 parse second_start)) ++
     [InsertProductCard "p1"; InsertProductCard "p2";
      InsertProductCard "p3"] ++
     [InsertProductCard "p1"; InsertProductCard "p2";
      InsertProductCard "p3"])%list.
Proof.
  exact (write_to_database_repeats_earlier_cards string mock_world
           (interpreter := cpython)
           (services := scripted (site market) 10)
           second_start
           (snd (run market 10 parse second_start))
           (snd (run market 10 to_database
                   (snd (run market 10 parse second_start))))
           eq_refl eq_refl).
Defined.
